(** * tqs: a client for a lease-based message queue service (tqs.go)

    A shallow embedding of the Go package [tqs] and the properties of its
    error handling, request construction and queue handle.

    Conventions of the embedding.
    - Go strings and byte slices are [string]s (sequences of bytes).
    - Go [int] has 32 or 64 bits, by the target (32 on 386 and arm, 64 on
      amd64 and arm64): the size is a field of the environment.
      [time.Duration] is an [int64] counting nanoseconds. Integers are [Z],
      with the wrap-around of conversions written out ([int_of_int64]); [/]
      on integers is [Z.quot].
    - A Go [error] is an [option Error]: [None] is the nil error.
    - Methods have value receivers: a method gets a copy of its receiver and
      hands back only its return values.
    - The packages net/http, net/url, io/ioutil and encoding/json are not part
      of the repository. They are the fields of an environment [Env]; the
      state of the network and of the remote service is threaded through
      [client_Do] explicitly.
    - [defer res.Body.Close()] has no effect on any returned value and is
      left out. *)

From Stdlib Require Import ZArith DecimalString Lia.
From stdpp Require Import base strings gmap list.

Open Scope Z_scope.

(** ** Data model *)

(** [time.Time], kept as an instant; the zero [Time] is [0]. *)
Definition Time := Z.

(** [time.Duration]: nanoseconds, an [int64]. *)
Definition Duration := Z.
Definition Second : Duration := 1000000000.

Record Queue := {
  Endpoint : string;
  Name : string;
  url : string;
  token : string;
}.

Record Message := {
  queue : Queue;
  BodyText : string;
  BodyType : string;
  CreateDate : Time;
  VisibleDate : Time;
  ExpireDate : Time;
  LeaseUUID : string;
  LeaseTimeout : Z;
  LeaseDate : Time;
}.

Record QueueStatistics := {
  Visible : Z;
  Delayed : Z;
  Leased : Z;
}.

Record CreateQueueRequest := { cqrName : string }.

Record GetMessagesResponse := { Messages : list Message }.

Record GetOptions := {
  Wait : Duration;
  Delete : bool;
  Retry : bool;
}.

Record MessageBody := {
  Text : string;
  Type_ : string;
}.

Record PutMessageRequest := { pmrMessages : list MessageBody }.

(** The zero values [Queue{}], [Message{}], [QueueStatistics{}] and
    [GetMessagesResponse{}]. *)
Definition Queue_zero : Queue :=
  {| Endpoint := ""; Name := ""; url := ""; token := "" |}.

Definition Message_zero : Message :=
  {| queue := Queue_zero; BodyText := ""; BodyType := "";
     CreateDate := 0; VisibleDate := 0; ExpireDate := 0;
     LeaseUUID := ""; LeaseTimeout := 0; LeaseDate := 0 |}.

Definition QueueStatistics_zero : QueueStatistics :=
  {| Visible := 0; Delayed := 0; Leased := 0 |}.

Definition GetMessagesResponse_zero : GetMessagesResponse :=
  {| Messages := [] |}.

(** [msg.queue = q] *)
Definition set_queue (msg : Message) (q : Queue) : Message :=
  {| queue := q; BodyText := BodyText msg; BodyType := BodyType msg;
     CreateDate := CreateDate msg; VisibleDate := VisibleDate msg;
     ExpireDate := ExpireDate msg; LeaseUUID := LeaseUUID msg;
     LeaseTimeout := LeaseTimeout msg; LeaseDate := LeaseDate msg |}.

(** The exported fields of a [Message]: what a caller outside the package can
    read ([queue] is unexported). *)
Definition exported_fields (m : Message)
  : string * string * Time * Time * Time * string * Z * Time :=
  (BodyText m, BodyType m, CreateDate m, VisibleDate m, ExpireDate m,
   LeaseUUID m, LeaseTimeout m, LeaseDate m).

(** ** Errors *)

(** An error value made by one of the library packages (a failed URL parse, a
    transport failure, a failed body read, a JSON syntax or type error). Its
    dynamic type belongs to that package, never to [tqs]. *)
Inductive lib_error := LibError (pkg text : string).

(** The error types of the package, and the library errors it passes on. *)
Inductive Error :=
| LeaseNotFoundError (message : Message)
| QueueNotFoundError (q : Queue)
| QueueEmptyError (q : Queue)
| QueueAlreadyExistsError (q : Queue)
| QueueHTTPError (q : Queue) (StatusCode : Z)
| Library (e : lib_error).

Definition error := option Error.

(** [if err != nil] over what a library call hands back. *)
Definition lift_error (e : option lib_error) : error := Library <$> e.

(** The type assertions on an error's dynamic type, as the package and its
    callers make them. *)
Definition is_LeaseNotFound (err : error) : bool :=
  match err with Some (LeaseNotFoundError _) => true | _ => false end.
Definition is_QueueNotFound (err : error) : bool :=
  match err with Some (QueueNotFoundError _) => true | _ => false end.
Definition is_QueueEmpty (err : error) : bool :=
  match err with Some (QueueEmptyError _) => true | _ => false end.

(** ** HTTP requests and responses *)

(** [url.Values] and [http.Header]: [map[string][]string]. *)
Abbreviation Values := (gmap string (list string)).

(** [Values.Set] and [Header.Set]: the key is bound to the single value. *)
Definition Values_Set (vs : Values) (key value : string) : Values :=
  <[key := [value]]> vs.

Record URL := {
  Scheme : string;
  Host : string;
  Path : string;
  RawQuery : string;
}.

Record Request := {
  Method : string;
  ReqURL : URL;
  Header : Values;
  ReqBody : option string;
  Close : bool;
}.

(** A response: its status and what [ioutil.ReadAll(res.Body)] gives. *)
Record Response := {
  StatusCode : Z;
  Body : lib_error + string;
}.

Record Client := { Timeout : Duration }.

Definition MethodGet : string := "GET".
Definition MethodPost : string := "POST".
Definition MethodDelete : string := "DELETE".
Definition StatusNotFound : Z := 404.

(** [req.Header.Set(key, value)] *)
Definition Header_Set (req : Request) (key value : string) : Request :=
  {| Method := Method req; ReqURL := ReqURL req;
     Header := Values_Set (Header req) key value;
     ReqBody := ReqBody req; Close := Close req |}.

(** [req.Close = b] *)
Definition set_Close (req : Request) (b : bool) : Request :=
  {| Method := Method req; ReqURL := ReqURL req; Header := Header req;
     ReqBody := ReqBody req; Close := b |}.

(** [req.URL.RawQuery = s] *)
Definition set_RawQuery (req : Request) (s : string) : Request :=
  {| Method := Method req;
     ReqURL := {| Scheme := Scheme (ReqURL req); Host := Host (ReqURL req);
                  Path := Path (ReqURL req); RawQuery := s |};
     Header := Header req; ReqBody := ReqBody req; Close := Close req |}.

(** [if q.token != "" { req.Header.Set("Authentication", "token "+q.token) }] *)
Definition authenticate (q : Queue) (req : Request) : Request :=
  if bool_decide (token q = "") then req
  else Header_Set req "Authentication" ("token " +:+ token q).

(** ** Integers *)

(** The values of an [int64], and so of a [time.Duration]. *)
Definition int64_range (z : Z) : Prop := - 2 ^ 63 <= z < 2 ^ 63.

(** The size of [int] on the target. *)
Inductive int_width := Int32 | Int64.

Definition int_bits (size : int_width) : Z :=
  match size with Int32 => 32 | Int64 => 64 end.

(** The values of an [int] of the given size. *)
Definition int_range (size : int_width) (z : Z) : Prop :=
  - 2 ^ (int_bits size - 1) <= z < 2 ^ (int_bits size - 1).

(** The conversion [int(x)] of an [int64] to the [int] of the target: the
    value modulo [2^32] or [2^64], read as a signed number. A 64-bit [int]
    holds every [int64]; a 32-bit [int] keeps the low 32 bits. *)
Definition int_of_int64 (size : int_width) (z : Z) : Z :=
  (z + 2 ^ (int_bits size - 1)) mod 2 ^ int_bits size
  - 2 ^ (int_bits size - 1).

(** [strconv.Itoa] *)
Definition Itoa (i : Z) : string := NilZero.string_of_int (Z.to_int i).

(** ** The environment: the library packages and the remote service *)

Record Env := {
  (** the size of [int] on the target the package is built for *)
  int_size : int_width;
  (** the state of the network and of the remote service *)
  W : Type;
  (** the target a caller hands to [GetValue] (the [interface{}] argument) *)
  V : Type;
  (** [http.NewRequest(method, url, body)] *)
  http_NewRequest : string -> string -> option string -> lib_error + Request;
  (** [client.Do(req)]: one round trip *)
  client_Do : W -> Client -> Request -> W * (lib_error + Response);
  (** [u.Query()] *)
  URL_Query : URL -> Values;
  (** [v.Encode()] *)
  Values_Encode : Values -> string;
  (** [json.Marshal] at the two request types *)
  json_Marshal_CreateQueueRequest : CreateQueueRequest -> lib_error + string;
  json_Marshal_PutMessageRequest : PutMessageRequest -> lib_error + string;
  (** [json.Unmarshal(data, &x)]: the target after the call and the error *)
  json_Unmarshal_QueueStatistics :
    string -> QueueStatistics -> QueueStatistics * option lib_error;
  json_Unmarshal_GetMessagesResponse :
    string -> GetMessagesResponse -> GetMessagesResponse * option lib_error;
  json_Unmarshal_value : string -> V -> V * option lib_error;
}.

(** ** The package *)

(** [func NewQueue(endpoint string, name string, token string) Queue] *)
Definition NewQueue (endpoint name token : string) : Queue :=
  {| Endpoint := endpoint;
     Name := name;
     url := endpoint +:+ "/queues/" +:+ name;
     token := token |}.

Section Package.

Context (E : Env).

(** *** Message.Delete *)

(** The request of [Delete] (lines 43-53). *)
Definition Delete_request (m : Message) : lib_error + Request :=
  let url := url (queue m) +:+ "/leases/" +:+ LeaseUUID m in
  match http_NewRequest E MethodDelete url None with
  | inl err => inl err
  | inr req =>
    let req := authenticate (queue m) req in
    let req := set_Close req true in
    inr req
  end.

(** [func (m Message) Delete() error] *)
Definition Message_Delete (w : W E) (m : Message) : W E * error :=
  let client := {| Timeout := Second * 2 |} in
  match Delete_request m with
  | inl err => (w, Some (Library err))
  | inr req =>
    match client_Do E w client req with
    | (w, inl err) => (w, Some (Library err))
    | (w, inr res) =>
      if StatusCode res =? 404 then (w, Some (LeaseNotFoundError m))
      else (w, None)
    end
  end.

(** *** Queue.Statistics and Queue.Exists *)

(** The request of [Statistics] (lines 119-127). *)
Definition Statistics_request (q : Queue) : lib_error + Request :=
  let url := url q +:+ "/statistics" in
  match http_NewRequest E MethodGet url None with
  | inl err => inl err
  | inr req => inr (authenticate q req)
  end.

(** [func (q Queue) Statistics() (QueueStatistics, error)] *)
Definition Statistics (w : W E) (q : Queue) : W E * (QueueStatistics * error) :=
  let client := {| Timeout := Second * 2 |} in
  match Statistics_request q with
  | inl err => (w, (QueueStatistics_zero, Some (Library err)))
  | inr req =>
    match client_Do E w client req with
    | (w, inl err) => (w, (QueueStatistics_zero, Some (Library err)))
    | (w, inr res) =>
      (* past [if err != nil { return }], the variable [err] holds nil *)
      let err : error := None in
      if StatusCode res =? StatusNotFound
      then (w, (QueueStatistics_zero, Some (QueueNotFoundError q)))
      else
        match Body res with
        | inl readErr => (w, (QueueStatistics_zero, err))
        | inr body =>
          let statistics := QueueStatistics_zero in
          match json_Unmarshal_QueueStatistics E body statistics with
          | (_, Some err) => (w, (QueueStatistics_zero, Some (Library err)))
          | (statistics, None) => (w, (statistics, None))
          end
        end
    end
  end.

(** [func (q Queue) Exists() (bool, error)] *)
Definition Exists (w : W E) (q : Queue) : W E * (bool * error) :=
  let '(w, (_, err)) := Statistics w q in
  match err with
  | Some e =>
    match e with
    | QueueNotFoundError _ => (w, (false, None))
    | _ => (w, (false, err))
    end
  | None => (w, (true, None))
  end.

(** *** Queue.Create *)

(** The request of [Create] (lines 171-188). *)
Definition Create_request (q : Queue) : lib_error + Request :=
  let createRequest := {| cqrName := Name q |} in
  match json_Marshal_CreateQueueRequest E createRequest with
  | inl err => inl err
  | inr data =>
    let url := Endpoint q +:+ "/queues" in
    match http_NewRequest E MethodPost url (Some data) with
    | inl err => inl err
    | inr req =>
      let req := authenticate q req in
      let req := set_Close req true in
      let req := Header_Set req "Content-Type" "application/json" in
      inr req
    end
  end.

(** [func (q Queue) Create() error] *)
Definition Create (w : W E) (q : Queue) : W E * error :=
  let client := {| Timeout := Second * 2 |} in
  match Create_request q with
  | inl err => (w, Some (Library err))
  | inr req =>
    match client_Do E w client req with
    | (w, inl err) => (w, Some (Library err))
    | (w, inr res) =>
      if StatusCode res =? 409 then (w, Some (QueueAlreadyExistsError q))
      else if negb (StatusCode res =? 200)
      then (w, Some (QueueHTTPError q (StatusCode res)))
      else (w, None)
    end
  end.

(** *** Queue.Get and Queue.GetValue *)

(** The query parameters of [Get] (lines 241-247), from those of the URL. *)
Definition Get_query (options : GetOptions) (query : Values) : Values :=
  let query :=
    if Delete options then Values_Set query "delete" "true" else query in
  let query :=
    if 0 <? Wait options
    then Values_Set query "wait_time"
           (Itoa (int_of_int64 (int_size E) (Wait options) ÷ 1000000000))
    else query in
  query.

(** The request of [Get] (lines 229-249). Inside [if options != nil] the
    source declares a [url.Values] variable that is also called [q]; it is the
    [query] of [Get_query]. After the block [q] is the receiver again. *)
Definition Get_request (q : Queue) (options : option GetOptions)
  : lib_error + Request :=
  match http_NewRequest E MethodGet (url q) None with
  | inl err => inl err
  | inr req =>
    let req := authenticate q req in
    let req := set_Close req true in
    match options with
    | Some options =>
      let query := Get_query options (URL_Query E (ReqURL req)) in
      inr (set_RawQuery req (Values_Encode E query))
    | None => inr req
    end
  end.

(** [func (q Queue) Get(options *GetOptions) (Message, error)] *)
Definition Get (w : W E) (q : Queue) (options : option GetOptions)
  : W E * (Message * error) :=
  let client := {| Timeout := 0 |} in
  match Get_request q options with
  | inl err => (w, (Message_zero, Some (Library err)))
  | inr req =>
    match client_Do E w client req with
    | (w, inl err) => (w, (Message_zero, Some (Library err)))
    | (w, inr res) =>
      (* past [if err != nil { return }], the variable [err] holds nil *)
      let err : error := None in
      if StatusCode res =? StatusNotFound
      then (w, (Message_zero, Some (QueueNotFoundError q)))
      else
        match Body res with
        | inl readErr => (w, (Message_zero, err))
        | inr body =>
          let response := GetMessagesResponse_zero in
          match json_Unmarshal_GetMessagesResponse E body response with
          | (_, Some err) => (w, (Message_zero, Some (Library err)))
          | (response, None) =>
            if (length (Messages response) =? 1)%nat
            then
              (* index 0 is in range: the length is 1 *)
              let msg := nth 0 (Messages response) Message_zero in
              let msg := set_queue msg q in
              (w, (msg, None))
            else (w, (Message_zero, Some (QueueEmptyError q)))
          end
        end
    end
  end.

(** [func (q Queue) GetValue(options *GetOptions, v interface{}) error]

    The call hands back an [error] only. [v] is a pointer: the target as the
    call leaves it comes with the error here. *)
Definition GetValue (w : W E) (q : Queue) (options : option GetOptions)
    (v : V E) : W E * (V E * error) :=
  let '(w, (msg, err)) := Get w q options in
  match err with
  | Some _ => (w, (v, err))
  | None =>
    let '(v, err) := json_Unmarshal_value E (BodyText msg) v in
    (w, (v, lift_error err))
  end.

(** *** Queue.Put *)

(** The request of [Put] (lines 293-312). *)
Definition Put_request (q : Queue) (bodyText bodyType : string)
  : lib_error + Request :=
  let request :=
    {| pmrMessages := [ {| Text := bodyText; Type_ := bodyType |} ] |} in
  match json_Marshal_PutMessageRequest E request with
  | inl err => inl err
  | inr data =>
    match http_NewRequest E MethodPost (url q) (Some data) with
    | inl err => inl err
    | inr req =>
      let req := authenticate q req in
      let req := set_Close req true in
      let req := Header_Set req "Content-Type" "application/json" in
      inr req
    end
  end.

(** [func (q Queue) Put(bodyText, bodyType string) error] *)
Definition Put (w : W E) (q : Queue) (bodyText bodyType : string)
  : W E * error :=
  let client := {| Timeout := 0 |} in
  match Put_request q bodyText bodyType with
  | inl err => (w, Some (Library err))
  | inr req =>
    match client_Do E w client req with
    | (w, inl err) => (w, Some (Library err))
    | (w, inr res) =>
      if StatusCode res =? 404 then (w, Some (QueueNotFoundError q))
      else if negb (StatusCode res =? 200)
      then (w, Some (QueueHTTPError q (StatusCode res)))
      else (w, None)
    end
  end.

End Package.

(** The clients of the two timeout regimes. *)
Definition client_2s : Client := {| Timeout := Second * 2 |}.
Definition client_unbounded : Client := {| Timeout := 0 |}.

(** ** Counting round trips *)

(** The environment [E] with a counter of the calls of [client.Do] next to the
    state of the network. *)
Definition counted (E : Env) : Env :=
  {| int_size := int_size E;
     W := W E * nat;
     V := V E;
     http_NewRequest := http_NewRequest E;
     client_Do := fun wn client req =>
       let '(w, r) := client_Do E wn.1 client req in ((w, S wn.2), r);
     URL_Query := URL_Query E;
     Values_Encode := Values_Encode E;
     json_Marshal_CreateQueueRequest := json_Marshal_CreateQueueRequest E;
     json_Marshal_PutMessageRequest := json_Marshal_PutMessageRequest E;
     json_Unmarshal_QueueStatistics := json_Unmarshal_QueueStatistics E;
     json_Unmarshal_GetMessagesResponse := json_Unmarshal_GetMessagesResponse E;
     json_Unmarshal_value := json_Unmarshal_value E |}.

(** ** Recording round trips *)

(** The environment [E] with a record of the calls of [client.Do] next to the
    state of the network: the client and the request of each call, in
    order. *)
Definition logged (E : Env) : Env :=
  {| int_size := int_size E;
     W := W E * list (Client * Request);
     V := V E;
     http_NewRequest := http_NewRequest E;
     client_Do := fun wl client req =>
       let '(w, r) := client_Do E wl.1 client req in
       ((w, wl.2 ++ [(client, req)]), r);
     URL_Query := URL_Query E;
     Values_Encode := Values_Encode E;
     json_Marshal_CreateQueueRequest := json_Marshal_CreateQueueRequest E;
     json_Marshal_PutMessageRequest := json_Marshal_PutMessageRequest E;
     json_Unmarshal_QueueStatistics := json_Unmarshal_QueueStatistics E;
     json_Unmarshal_GetMessagesResponse := json_Unmarshal_GetMessagesResponse E;
     json_Unmarshal_value := json_Unmarshal_value E |}.

(** What a method adds to the record: the request it built, if it built
    one. *)
Definition sent (client : Client) (req : lib_error + Request)
  : list (Client * Request) :=
  match req with
  | inl _ => []
  | inr req => [(client, req)]
  end.

(** ** The requests of a queue *)

(** [request_of E q req]: [req] is the request that one of the operations
    builds for the queue [q]; for [Delete], for a message that refers to
    [q]. *)
Inductive request_of (E : Env) (q : Queue) : Request -> Prop :=
| request_of_Statistics req :
    Statistics_request E q = inr req -> request_of E q req
| request_of_Create req :
    Create_request E q = inr req -> request_of E q req
| request_of_Get options req :
    Get_request E q options = inr req -> request_of E q req
| request_of_Put bodyText bodyType req :
    Put_request E q bodyText bodyType = inr req -> request_of E q req
| request_of_Delete m req :
    queue m = q -> Delete_request E m = inr req -> request_of E q req.

(** [req0] is a request as [http.NewRequest] makes it. *)
Definition fresh_request (E : Env) (req0 : Request) : Prop :=
  exists method url body, http_NewRequest E method url body = inr req0.

(** ** The texts of the errors *)

(** [func (e *LeaseNotFoundError) Error() string] *)
Definition LeaseNotFoundError_Error (message : Message) : string :=
  "Lease <" +:+ LeaseUUID message +:+ "> does not exist or expired".

(** [func (e *QueueNotFoundError) Error() string] *)
Definition QueueNotFoundError_Error (q : Queue) : string :=
  "Queue <" +:+ Name q +:+ "> does not exist".

(** [func (e *QueueEmptyError) Error() string] *)
Definition QueueEmptyError_Error (q : Queue) : string :=
  "Queue <" +:+ Name q +:+ "> has no messages available".

(** [func (e *QueueAlreadyExistsError) Error() string] *)
Definition QueueAlreadyExistsError_Error (q : Queue) : string :=
  "Queue <" +:+ Name q +:+ "> already exist".

(** [func (e *QueueHTTPError) Error() string] *)
Definition QueueHTTPError_Error (q : Queue) (StatusCode : Z) : string :=
  "Queue <" +:+ Name q +:+ "> return HTTP Status <" +:+ Itoa StatusCode
    +:+ ">".

(** [err.Error()] through the [error] interface; a library error gives the
    text its package made. *)
Definition Error_text (e : Error) : string :=
  match e with
  | LeaseNotFoundError message => LeaseNotFoundError_Error message
  | QueueNotFoundError q => QueueNotFoundError_Error q
  | QueueEmptyError q => QueueEmptyError_Error q
  | QueueAlreadyExistsError q => QueueAlreadyExistsError_Error q
  | QueueHTTPError q StatusCode => QueueHTTPError_Error q StatusCode
  | Library (LibError _ text) => text
  end.

(** ** A caller holding a queue handle *)

(** The calls a caller makes on its handle and on the message it holds. *)
Inductive call (E : Env) :=
| CallCreate
| CallExists
| CallStatistics
| CallGet (options : option GetOptions)
| CallGetValue (options : option GetOptions) (v : V E)
| CallPut (bodyText bodyType : string)
| CallDelete.
Arguments CallCreate {E}.
Arguments CallExists {E}.
Arguments CallStatistics {E}.
Arguments CallGet {E}.
Arguments CallGetValue {E}.
Arguments CallPut {E}.
Arguments CallDelete {E}.

(** The caller's variables: the queue handle, and the message of the last
    [Get] that gave one. *)
Record caller (E : Env) := {
  net : W E;
  handle : Queue;
  held : option Message;
}.
Arguments net {E}.
Arguments handle {E}.
Arguments held {E}.

(** One call. The receiver is passed by value, so the caller's handle is what
    it was; a message handed back by [Get] replaces the one held. *)
Definition step {E : Env} (s : caller E) (c : call E) : caller E :=
  match c with
  | CallCreate =>
    let '(w, _) := Create E (net s) (handle s) in
    {| net := w; handle := handle s; held := held s |}
  | CallExists =>
    let '(w, _) := Exists E (net s) (handle s) in
    {| net := w; handle := handle s; held := held s |}
  | CallStatistics =>
    let '(w, _) := Statistics E (net s) (handle s) in
    {| net := w; handle := handle s; held := held s |}
  | CallGet options =>
    let '(w, (msg, err)) := Get E (net s) (handle s) options in
    {| net := w; handle := handle s;
       held := match err with None => Some msg | Some _ => held s end |}
  | CallGetValue options v =>
    let '(w, _) := GetValue E (net s) (handle s) options v in
    {| net := w; handle := handle s; held := held s |}
  | CallPut bodyText bodyType =>
    let '(w, _) := Put E (net s) (handle s) bodyText bodyType in
    {| net := w; handle := handle s; held := held s |}
  | CallDelete =>
    match held s with
    | Some m =>
      let '(w, _) := Message_Delete E (net s) m in
      {| net := w; handle := handle s; held := held s |}
    | None => s
    end
  end.

Definition run {E : Env} (s : caller E) (cs : list (call E)) : caller E :=
  fold_left step cs s.

(** Every [Queue] the caller can reach is [q]: its handle, and the
    back-reference of the message it holds. ([Get] returns the zero
    [Message] with a nil error when the body cannot be read; that message
    refers to no queue.) *)
Definition bound_to {E : Env} (q : Queue) (s : caller E) : Prop :=
  handle s = q
  /\ match held s with
     | Some m => queue m = q \/ m = Message_zero
     | None => True
     end.

(** ** A scripted service, for concrete runs *)

Module Scripted.

(** Three messages as a decoder leaves them: [queue] is not a JSON field and
    stays zero. [msg_a] and [msg_b] carry the same text under two leases. *)
Definition msg_a : Message :=
  {| queue := Queue_zero; BodyText := "<html>"; BodyType := "text/html";
     CreateDate := 10; VisibleDate := 10; ExpireDate := 900;
     LeaseUUID := "lease-a"; LeaseTimeout := 300; LeaseDate := 20 |}.

Definition msg_b : Message :=
  {| queue := Queue_zero; BodyText := "<html>"; BodyType := "text/html";
     CreateDate := 11; VisibleDate := 11; ExpireDate := 901;
     LeaseUUID := "lease-b"; LeaseTimeout := 300; LeaseDate := 21 |}.

Definition msg_c : Message :=
  {| queue := Queue_zero; BodyText := "42"; BodyType := "application/json";
     CreateDate := 12; VisibleDate := 12; ExpireDate := 902;
     LeaseUUID := "lease-c"; LeaseTimeout := 300; LeaseDate := 22 |}.

Definition syntax_error : lib_error :=
  LibError "encoding/json" "invalid character".

(** The service answers from a script: the head of the list is the outcome of
    the next round trip. Bodies are short tags that the decoders below know,
    in place of JSON text. The package is built for a target with an [int]
    of the given size. *)
Definition service (size : int_width) : Env :=
  {| int_size := size;
     W := list (lib_error + Response);
     V := Z;
     http_NewRequest := fun method url body =>
       inr {| Method := method;
              ReqURL := {| Scheme := ""; Host := ""; Path := url;
                           RawQuery := "" |};
              Header := ∅; ReqBody := body; Close := false |};
     client_Do := fun w client req =>
       match w with
       | [] => ([], inl (LibError "net/http" "connection refused"))
       | r :: w => (w, r)
       end;
     URL_Query := fun u => ∅;
     Values_Encode := fun vs =>
       String.concat "&"
         ((fun kv => kv.1 +:+ "=" +:+ String.concat "," kv.2)
            <$> map_to_list vs);
     json_Marshal_CreateQueueRequest := fun r => inr (cqrName r);
     json_Marshal_PutMessageRequest := fun r =>
       inr (String.concat "," (Text <$> pmrMessages r));
     json_Unmarshal_QueueStatistics := fun data target =>
       if bool_decide (data = "1,2,3")
       then ({| Visible := 1; Delayed := 2; Leased := 3 |}, None)
       else if bool_decide (data = "0,0,0")
       then (QueueStatistics_zero, None)
       else (target, Some syntax_error);
     json_Unmarshal_GetMessagesResponse := fun data target =>
       if bool_decide (data = "none") then ({| Messages := [] |}, None)
       else if bool_decide (data = "a") then ({| Messages := [msg_a] |}, None)
       else if bool_decide (data = "b") then ({| Messages := [msg_b] |}, None)
       else if bool_decide (data = "c") then ({| Messages := [msg_c] |}, None)
       else if bool_decide (data = "ab")
       then ({| Messages := [msg_a; msg_b] |}, None)
       else (target, Some syntax_error);
     json_Unmarshal_value := fun data target =>
       if bool_decide (data = "42") then (42, None)
       else (target, Some syntax_error) |}.

(** The scripted service with the package built for a 64-bit target, and for
    a 32-bit target. *)
Definition env : Env := service Int64.
Definition env32 : Env := service Int32.

(** A response with the given status and body. *)
Definition answer (status : Z) (body : string) : lib_error + Response :=
  inr {| StatusCode := status; Body := inr body |}.

(** A response whose body cannot be read. *)
Definition broken (status : Z) : lib_error + Response :=
  inr {| StatusCode := status;
         Body := inl (LibError "io" "unexpected EOF") |}.

Definition jobs : Queue := NewQueue "http://tqs.local" "jobs" "s3cr3t".

End Scripted.

(** * Properties *)

(** Case analysis on the status tests of a method body. *)
Ltac status_cases :=
  repeat match goal with
  | |- context [Z.eqb ?a ?b] => destruct (Z.eqb_spec a b)
  | H : context [Z.eqb ?a ?b] |- _ => destruct (Z.eqb_spec a b)
  end.

(** ** Message.Delete *)

Lemma Delete_response (E : Env) w m req w' res :
  Delete_request E m = inr req ->
  client_Do E w client_2s req = (w', inr res) ->
  Message_Delete E w m =
    (w', if StatusCode res =? 404 then Some (LeaseNotFoundError m) else None).
Proof.
  intros Hreq Hdo. unfold Message_Delete. rewrite Hreq.
  fold client_2s. rewrite Hdo. by destruct (StatusCode res =? 404).
Qed.

(** C2. A [Delete] that receives a response returns a [LeaseNotFoundError]
    exactly when the status is 404; every other status, 5xx included, gives
    the nil error. *)
Theorem Delete_LeaseNotFound_iff_404 (E : Env) w m req w' res :
  Delete_request E m = inr req ->
  client_Do E w client_2s req = (w', inr res) ->
  (is_LeaseNotFound (Message_Delete E w m).2 = true <-> StatusCode res = 404)
  /\ (StatusCode res = 404 ->
      Message_Delete E w m = (w', Some (LeaseNotFoundError m)))
  /\ (StatusCode res <> 404 -> Message_Delete E w m = (w', None)).
Proof.
  intros Hreq Hdo. rewrite (Delete_response E w m req w' res Hreq Hdo).
  status_cases; simpl; repeat split; intros; try done.
Qed.

(** A 503 answer to [Delete] is a success. *)
Lemma Delete_LeaseNotFound_iff_404_witness :
  Message_Delete Scripted.env [Scripted.answer 503 ""]
    (set_queue Scripted.msg_a Scripted.jobs) = ([], None).
Proof.
  edestruct (Delete_LeaseNotFound_iff_404 Scripted.env
               [Scripted.answer 503 ""]
               (set_queue Scripted.msg_a Scripted.jobs))
    as (_ & _ & Hother); [reflexivity | reflexivity |].
  apply Hother. simpl. lia.
Defined.

(** ** Queue.Create *)

Lemma Create_response (E : Env) w q req w' res :
  Create_request E q = inr req ->
  client_Do E w client_2s req = (w', inr res) ->
  Create E w q =
    (w', if StatusCode res =? 409 then Some (QueueAlreadyExistsError q)
         else if negb (StatusCode res =? 200)
         then Some (QueueHTTPError q (StatusCode res))
         else None).
Proof.
  intros Hreq Hdo. unfold Create. rewrite Hreq.
  fold client_2s. rewrite Hdo. by status_cases.
Qed.

(** C4. A [Create] that receives a response returns nil on status 200, a
    [QueueAlreadyExistsError] on 409, and on every other status a
    [QueueHTTPError] that carries the status itself. *)
Theorem Create_status (E : Env) w q req w' res :
  Create_request E q = inr req ->
  client_Do E w client_2s req = (w', inr res) ->
  (StatusCode res = 200 -> Create E w q = (w', None))
  /\ (StatusCode res = 409 ->
      Create E w q = (w', Some (QueueAlreadyExistsError q)))
  /\ (StatusCode res <> 200 -> StatusCode res <> 409 ->
      Create E w q = (w', Some (QueueHTTPError q (StatusCode res)))).
Proof.
  intros Hreq Hdo. rewrite (Create_response E w q req w' res Hreq Hdo).
  repeat split; intros; status_cases; simpl; congruence.
Qed.

(** A 500 answer to [Create] comes back as [QueueHTTPError] with 500. *)
Lemma Create_status_witness :
  Create Scripted.env [Scripted.answer 500 ""] Scripted.jobs
  = ([], Some (QueueHTTPError Scripted.jobs 500)).
Proof.
  edestruct (Create_status Scripted.env [Scripted.answer 500 ""] Scripted.jobs)
    as (_ & _ & Hother); [reflexivity | reflexivity |].
  apply Hother; simpl; lia.
Defined.

(** ** Queue.Exists *)

(** C3. [Exists] calls [Statistics]. It returns [(false, nil)] exactly when
    [Statistics] returns a [QueueNotFoundError]; any other error comes back
    unchanged, with [false]; without an error it returns [(true, nil)]. *)
Theorem Exists_translates_QueueNotFound (E : Env) w q w' st err :
  Statistics E w q = (w', (st, err)) ->
  (Exists E w q).1 = w'
  /\ ((Exists E w q).2 = (false, None) <-> is_QueueNotFound err = true)
  /\ (err <> None -> is_QueueNotFound err = false ->
      (Exists E w q).2 = (false, err))
  /\ (err = None -> (Exists E w q).2 = (true, None)).
Proof.
  intros Hst. unfold Exists. rewrite Hst.
  destruct err as [[]|]; simpl; repeat split; intros; congruence.
Qed.

(** On a 404 answer [Statistics] gives [QueueNotFoundError] and [Exists]
    gives [(false, nil)]. *)
Lemma Exists_translates_QueueNotFound_witness :
  (Exists Scripted.env [Scripted.answer 404 ""] Scripted.jobs).2
  = (false, None).
Proof.
  edestruct (Exists_translates_QueueNotFound Scripted.env
               [Scripted.answer 404 ""] Scripted.jobs)
    as (_ & Hiff & _); [reflexivity |].
  apply Hiff. reflexivity.
Defined.

(** ** Queue.Get *)

Lemma Get_response (E : Env) w q options req w' res :
  Get_request E q options = inr req ->
  client_Do E w client_unbounded req = (w', inr res) ->
  Get E w q options =
    if StatusCode res =? StatusNotFound
    then (w', (Message_zero, Some (QueueNotFoundError q)))
    else
      match Body res with
      | inl readErr => (w', (Message_zero, None))
      | inr body =>
        match json_Unmarshal_GetMessagesResponse E body
                GetMessagesResponse_zero with
        | (_, Some err) => (w', (Message_zero, Some (Library err)))
        | (response, None) =>
          if (length (Messages response) =? 1)%nat
          then (w', (set_queue (nth 0 (Messages response) Message_zero) q,
                     None))
          else (w', (Message_zero, Some (QueueEmptyError q)))
        end
      end.
Proof.
  intros Hreq Hdo. unfold Get. rewrite Hreq.
  fold client_unbounded. rewrite Hdo. reflexivity.
Qed.

(** C1. A [Get] that receives a response with status 404 returns a
    [QueueNotFoundError]; with another status and a batch that decodes to
    zero messages it returns a [QueueEmptyError]. The two are not confused:
    [QueueNotFoundError] comes back exactly on 404, and [QueueEmptyError]
    never comes back on 404. *)
Theorem Get_QueueNotFound_vs_QueueEmpty (E : Env) w q options req w' res :
  Get_request E q options = inr req ->
  client_Do E w client_unbounded req = (w', inr res) ->
  (StatusCode res = 404 ->
   Get E w q options = (w', (Message_zero, Some (QueueNotFoundError q))))
  /\ (forall body response,
      StatusCode res <> 404 ->
      Body res = inr body ->
      json_Unmarshal_GetMessagesResponse E body GetMessagesResponse_zero
        = (response, None) ->
      Messages response = [] ->
      Get E w q options = (w', (Message_zero, Some (QueueEmptyError q))))
  /\ (is_QueueNotFound (Get E w q options).2.2 = true <->
      StatusCode res = 404)
  /\ (is_QueueEmpty (Get E w q options).2.2 = true -> StatusCode res <> 404).
Proof.
  intros Hreq Hdo. rewrite (Get_response E w q options req w' res Hreq Hdo).
  unfold StatusNotFound. repeat split.
  - intros ->. reflexivity.
  - intros body response Hne Hbody Hdec Hnil.
    status_cases; [done|]. rewrite Hbody, Hdec, Hnil. reflexivity.
  - status_cases; [done|]. destruct (Body res) as [readErr|body]; [done|].
    destruct (json_Unmarshal_GetMessagesResponse _ _ _) as [response [err|]];
      [done|].
    by destruct (_ =? _)%nat.
  - intros ->. reflexivity.
  - status_cases; [done|]. intros _. done.
Qed.

(** An existing, empty queue against a missing one. *)
Lemma Get_QueueNotFound_vs_QueueEmpty_witness :
  Get Scripted.env [Scripted.answer 200 "none"] Scripted.jobs None
    = ([], (Message_zero, Some (QueueEmptyError Scripted.jobs)))
  /\ Get Scripted.env [Scripted.answer 404 ""] Scripted.jobs None
    = ([], (Message_zero, Some (QueueNotFoundError Scripted.jobs))).
Proof.
  split.
  - edestruct (Get_QueueNotFound_vs_QueueEmpty Scripted.env
                 [Scripted.answer 200 "none"] Scripted.jobs None)
      as (_ & Hempty & _); [reflexivity | reflexivity |].
    eapply Hempty; [simpl; lia | reflexivity | reflexivity | reflexivity].
  - edestruct (Get_QueueNotFound_vs_QueueEmpty Scripted.env
                 [Scripted.answer 404 ""] Scripted.jobs None)
      as (Hmissing & _); [reflexivity | reflexivity |].
    apply Hmissing. reflexivity.
Defined.

(** A batch of two messages: [Get] gives none of them. It returns the zero
    [Message] with a [QueueEmptyError], not the first message with a nil
    error. *)
Lemma Get_batch_of_two_not_first :
  json_Unmarshal_GetMessagesResponse Scripted.env "ab" GetMessagesResponse_zero
    = ({| Messages := [Scripted.msg_a; Scripted.msg_b] |}, None)
  /\ Get Scripted.env [Scripted.answer 200 "ab"] Scripted.jobs None
     = ([], (Message_zero, Some (QueueEmptyError Scripted.jobs)))
  /\ Get Scripted.env [Scripted.answer 200 "ab"] Scripted.jobs None
     <> ([], (set_queue Scripted.msg_a Scripted.jobs, None)).
Proof. repeat split. discriminate. Qed.

(** C5, as the code has it. A [Get] whose response, not a 404, decodes to
    more than one message returns the zero [Message] and a
    [QueueEmptyError]. Only a batch of exactly one message is handed back,
    with its [queue] bound to the receiver and a nil error. *)
Theorem Get_batch_size (E : Env) w q options req w' res body response :
  Get_request E q options = inr req ->
  client_Do E w client_unbounded req = (w', inr res) ->
  StatusCode res <> 404 ->
  Body res = inr body ->
  json_Unmarshal_GetMessagesResponse E body GetMessagesResponse_zero
    = (response, None) ->
  ((1 < length (Messages response))%nat ->
   Get E w q options = (w', (Message_zero, Some (QueueEmptyError q))))
  /\ (forall msg, Messages response = [msg] ->
      Get E w q options = (w', (set_queue msg q, None))
      /\ queue (Get E w q options).2.1 = q).
Proof.
  intros Hreq Hdo Hne Hbody Hdec.
  rewrite (Get_response E w q options req w' res Hreq Hdo).
  unfold StatusNotFound. status_cases; [done|]. rewrite Hbody, Hdec. split.
  - intros Hlen. destruct (Nat.eqb_spec (length (Messages response)) 1); [lia|].
    reflexivity.
  - intros msg ->. split; reflexivity.
Qed.

(** The batch of two, and a batch of one. *)
Lemma Get_batch_size_witness :
  Get Scripted.env [Scripted.answer 200 "ab"] Scripted.jobs None
    = ([], (Message_zero, Some (QueueEmptyError Scripted.jobs)))
  /\ Get Scripted.env [Scripted.answer 200 "a"] Scripted.jobs None
    = ([], (set_queue Scripted.msg_a Scripted.jobs, None)).
Proof.
  split.
  - edestruct (Get_batch_size Scripted.env [Scripted.answer 200 "ab"]
                 Scripted.jobs None) as (Hmany & _);
      [reflexivity | reflexivity | simpl; lia | reflexivity | reflexivity |].
    apply Hmany. simpl. lia.
  - edestruct (Get_batch_size Scripted.env [Scripted.answer 200 "a"]
                 Scripted.jobs None) as (_ & Hone);
      [reflexivity | reflexivity | simpl; lia | reflexivity | reflexivity |].
    apply Hone. reflexivity.
Defined.

(** ** A body that cannot be read *)

Lemma Statistics_response (E : Env) w q req w' res :
  Statistics_request E q = inr req ->
  client_Do E w client_2s req = (w', inr res) ->
  Statistics E w q =
    if StatusCode res =? StatusNotFound
    then (w', (QueueStatistics_zero, Some (QueueNotFoundError q)))
    else
      match Body res with
      | inl readErr => (w', (QueueStatistics_zero, None))
      | inr body =>
        match json_Unmarshal_QueueStatistics E body QueueStatistics_zero with
        | (_, Some err) => (w', (QueueStatistics_zero, Some (Library err)))
        | (statistics, None) => (w', (statistics, None))
        end
      end.
Proof.
  intros Hreq Hdo. unfold Statistics. rewrite Hreq.
  fold client_2s. rewrite Hdo. reflexivity.
Qed.

(** C10. In [Statistics] and in [Get], when the status is not 404 and
    reading the body fails, the call returns the zero value with a nil error:
    the read error is dropped. A caller cannot tell this from a success with
    zero values: a response that decodes to zero statistics gives the same
    return, and a response that decodes to one message with zero fields gives
    the same error (nil) and the same exported fields. *)
Theorem body_read_failure_returns_nil_error (E : Env) w w' q options res readErr :
  StatusCode res <> 404 ->
  Body res = inl readErr ->
  (forall req,
     Statistics_request E q = inr req ->
     client_Do E w client_2s req = (w', inr res) ->
     Statistics E w q = (w', (QueueStatistics_zero, None))
     /\ forall w0 res0 body,
          client_Do E w0 client_2s req = (w', inr res0) ->
          StatusCode res0 <> 404 ->
          Body res0 = inr body ->
          json_Unmarshal_QueueStatistics E body QueueStatistics_zero
            = (QueueStatistics_zero, None) ->
          Statistics E w0 q = Statistics E w q)
  /\ (forall req,
        Get_request E q options = inr req ->
        client_Do E w client_unbounded req = (w', inr res) ->
        Get E w q options = (w', (Message_zero, None))
        /\ forall w0 res0 body msg,
             client_Do E w0 client_unbounded req = (w', inr res0) ->
             StatusCode res0 <> 404 ->
             Body res0 = inr body ->
             json_Unmarshal_GetMessagesResponse E body GetMessagesResponse_zero
               = ({| Messages := [msg] |}, None) ->
             exported_fields msg = exported_fields Message_zero ->
             (Get E w0 q options).2.2 = (Get E w q options).2.2
             /\ exported_fields (Get E w0 q options).2.1
                = exported_fields (Get E w q options).2.1).
Proof.
  intros Hne Hbody. split.
  - intros req Hreq Hdo.
    assert (Hfail : Statistics E w q = (w', (QueueStatistics_zero, None))).
    { rewrite (Statistics_response E w q req w' res Hreq Hdo).
      unfold StatusNotFound. status_cases; [done|]. by rewrite Hbody. }
    split; [exact Hfail|].
    intros w0 res0 body Hdo0 Hne0 Hbody0 Hdec. rewrite Hfail.
    rewrite (Statistics_response E w0 q req w' res0 Hreq Hdo0).
    unfold StatusNotFound. status_cases; [done|]. by rewrite Hbody0, Hdec.
  - intros req Hreq Hdo.
    assert (Hfail : Get E w q options = (w', (Message_zero, None))).
    { rewrite (Get_response E w q options req w' res Hreq Hdo).
      unfold StatusNotFound. status_cases; [done|]. by rewrite Hbody. }
    split; [exact Hfail|].
    intros w0 res0 body msg Hdo0 Hne0 Hbody0 Hdec Hzero. rewrite Hfail.
    rewrite (Get_response E w0 q options req w' res0 Hreq Hdo0).
    unfold StatusNotFound. status_cases; [done|]. rewrite Hbody0, Hdec.
    simpl. split; [reflexivity | exact Hzero].
Qed.

(** A 200 answer whose body breaks off, in [Statistics] and in [Get]. *)
Lemma body_read_failure_returns_nil_error_witness :
  Statistics Scripted.env [Scripted.broken 200] Scripted.jobs
    = ([], (QueueStatistics_zero, None))
  /\ Statistics Scripted.env [Scripted.answer 200 "0,0,0"] Scripted.jobs
     = Statistics Scripted.env [Scripted.broken 200] Scripted.jobs
  /\ Get Scripted.env [Scripted.broken 200] Scripted.jobs None
    = ([], (Message_zero, None)).
Proof.
  destruct (body_read_failure_returns_nil_error Scripted.env
              [Scripted.broken 200] [] Scripted.jobs None
              {| StatusCode := 200;
                 Body := inl (LibError "io" "unexpected EOF") |}
              (LibError "io" "unexpected EOF"))
    as (Hstatistics & Hget); [simpl; lia | reflexivity |].
  edestruct Hstatistics as (Hfail & Hsame); [reflexivity | reflexivity |].
  edestruct Hget as (Hfail' & _); [reflexivity | reflexivity |].
  split; [exact Hfail|]. split; [|exact Hfail'].
  eapply (Hsame [Scripted.answer 200 "0,0,0"]);
    [reflexivity | simpl; lia | reflexivity | reflexivity].
Defined.

(** ** Conversions and the URL of a request *)

Lemma int_of_int64_fits size z : int_range size z -> int_of_int64 size z = z.
Proof.
  unfold int_range, int_of_int64. intros Hz.
  destruct size; simpl in *; rewrite Z.mod_small; lia.
Qed.

Lemma int_of_int64_id z : int64_range z -> int_of_int64 Int64 z = z.
Proof. intros Hz. by apply int_of_int64_fits. Qed.

Lemma ReqURL_authenticate q req : ReqURL (authenticate q req) = ReqURL req.
Proof. unfold authenticate. by case_bool_decide. Qed.

(** ** The Retry option and round trips *)

(** Case analysis on every test of a method body. *)
Ltac body_cases :=
  repeat (simpl;
    match goal with
    | |- context [match ?x with _ => _ end] => destruct x eqn:?
    | |- context [if ?b then _ else _] => destruct b eqn:?
    end); simpl.

(** A method body over the counting environment: the request is built or not,
    then [client.Do] answers, then the response is handled. *)
Ltac one_round_trip :=
  match goal with
  | |- context [match ?r with inl _ => _ | inr _ => _ end] =>
    destruct r as [?|?]
  end; [simpl; lia|];
  simpl;
  match goal with
  | |- context [client_Do ?E ?w ?c ?r] =>
    destruct (client_Do E w c r) as [? [?|?]]
  end; body_cases; lia.

Section RoundTrips.

Context (E : Env).

Lemma Get_round_trips w n q options :
  ((Get (counted E) (w, n) q options).1.2 <= S n)%nat.
Proof. unfold Get. change (Get_request (counted E)) with (Get_request E).
  one_round_trip. Qed.

Lemma GetValue_round_trips w n q options v :
  ((GetValue (counted E) (w, n) q options v).1.2 <= S n)%nat.
Proof.
  unfold GetValue. pose proof (Get_round_trips w n q options) as Hget.
  destruct (Get (counted E) (w, n) q options) as [[w' n'] [msg [err|]]];
    [exact Hget|].
  simpl. destruct (json_Unmarshal_value E (BodyText msg) v). exact Hget.
Qed.

Lemma Statistics_round_trips w n q :
  ((Statistics (counted E) (w, n) q).1.2 <= S n)%nat.
Proof. unfold Statistics.
  change (Statistics_request (counted E)) with (Statistics_request E).
  one_round_trip. Qed.

Lemma Exists_round_trips w n q :
  ((Exists (counted E) (w, n) q).1.2 <= S n)%nat.
Proof.
  unfold Exists. pose proof (Statistics_round_trips w n q) as Hst.
  destruct (Statistics (counted E) (w, n) q) as [[w' n'] [st [[]|]]];
    exact Hst.
Qed.

Lemma Create_round_trips w n q :
  ((Create (counted E) (w, n) q).1.2 <= S n)%nat.
Proof. unfold Create.
  change (Create_request (counted E)) with (Create_request E).
  one_round_trip. Qed.

Lemma Put_round_trips w n q bodyText bodyType :
  ((Put (counted E) (w, n) q bodyText bodyType).1.2 <= S n)%nat.
Proof. unfold Put.
  change (Put_request (counted E)) with (Put_request E).
  one_round_trip. Qed.

Lemma Delete_round_trips w n m :
  ((Message_Delete (counted E) (w, n) m).1.2 <= S n)%nat.
Proof. unfold Message_Delete.
  change (Delete_request (counted E)) with (Delete_request E).
  one_round_trip. Qed.

(** Counting does not change what a call returns. *)
Lemma Get_counted w n q options :
  (Get (counted E) (w, n) q options).1.1 = (Get E w q options).1
  /\ (Get (counted E) (w, n) q options).2 = (Get E w q options).2.
Proof. unfold Get.
  change (Get_request (counted E)) with (Get_request E).
  destruct (Get_request E q options) as [err|req]; [done|].
  simpl. destruct (client_Do E w _ req) as [w' [err|res]]; [done|].
  body_cases; done.
Qed.

End RoundTrips.

(** C9. Two option values that differ in [Retry] only give the same request,
    the same result of [Get] and the same result of [GetValue]: no operation
    reads [Retry]. No operation tries again: each call of [Get], [GetValue],
    [Statistics], [Exists], [Create], [Put] and [Delete] makes at most one
    round trip. *)
Theorem Retry_is_inert (E : Env) w n q wait delete retry1 retry2 v bodyText bodyType m :
  let o1 := Some {| Wait := wait; Delete := delete; Retry := retry1 |} in
  let o2 := Some {| Wait := wait; Delete := delete; Retry := retry2 |} in
  Get_request E q o1 = Get_request E q o2
  /\ Get E w q o1 = Get E w q o2
  /\ GetValue E w q o1 v = GetValue E w q o2 v
  /\ ((Get (counted E) (w, n) q o1).1.2 <= S n)%nat
  /\ ((GetValue (counted E) (w, n) q o1 v).1.2 <= S n)%nat
  /\ ((Statistics (counted E) (w, n) q).1.2 <= S n)%nat
  /\ ((Exists (counted E) (w, n) q).1.2 <= S n)%nat
  /\ ((Create (counted E) (w, n) q).1.2 <= S n)%nat
  /\ ((Put (counted E) (w, n) q bodyText bodyType).1.2 <= S n)%nat
  /\ ((Message_Delete (counted E) (w, n) m).1.2 <= S n)%nat.
Proof.
  intros o1 o2.
  assert (Hreq : Get_request E q o1 = Get_request E q o2) by reflexivity.
  assert (Hget : Get E w q o1 = Get E w q o2).
  { unfold Get. by rewrite Hreq. }
  split; [exact Hreq|]. split; [exact Hget|].
  split; [unfold GetValue; by rewrite Hget|].
  auto 10 using Get_round_trips, GetValue_round_trips, Statistics_round_trips,
    Exists_round_trips, Create_round_trips, Put_round_trips,
    Delete_round_trips.
Qed.

(** ** The queue handle *)

Section Handle.

Context (E : Env).

(** A message that [Get] hands back with a nil error refers to the
    receiver. *)
Lemma Get_binds_queue w q options w' msg :
  Get E w q options = (w', (msg, None)) ->
  queue msg = q \/ msg = Message_zero.
Proof.
  unfold Get. body_cases; intros; simplify_eq/=; auto.
Qed.

Lemma step_bound_to q (s : caller E) c :
  bound_to q s -> bound_to q (step s c).
Proof.
  intros [Hq Hm]. unfold bound_to. destruct c; simpl.
  - destruct (Create E (net s) (handle s)). done.
  - destruct (Exists E (net s) (handle s)). done.
  - destruct (Statistics E (net s) (handle s)). done.
  - destruct (Get E (net s) (handle s) options) as [w' [msg [err|]]] eqn:Hget;
      [done|].
    split; [done|]. simpl. rewrite Hq in Hget.
    by apply Get_binds_queue in Hget.
  - destruct (GetValue E (net s) (handle s) options v). done.
  - destruct (Put E (net s) (handle s) bodyText bodyType). done.
  - destruct (held s) as [m|] eqn:Hheld; [|by rewrite ?Hheld].
    destruct (Message_Delete E (net s) m). simpl. by rewrite ?Hheld.
Qed.

Lemma run_bound_to q (cs : list (call E)) : forall s : caller E,
  bound_to q s -> bound_to q (run s cs).
Proof.
  induction cs as [|c cs IH]; intros s Hs; [exact Hs|].
  simpl. apply IH. by apply step_bound_to.
Qed.

End Handle.

(** C7. The queue built by [NewQueue] has the URL
    [endpoint/queues/name]. No call of [Create], [Exists], [Statistics],
    [Get], [GetValue], [Put] or [Delete] changes a field of it: after any
    sequence of calls the caller's handle is the queue as built, with that
    URL, and the message the caller holds refers to that queue (or is the
    zero [Message], which refers to none). *)
Theorem Queue_never_mutated (E : Env) endpoint name token w (cs : list (call E)) :
  let q := NewQueue endpoint name token in
  let s := run {| net := w; handle := q; held := None |} cs in
  url q = endpoint +:+ "/queues/" +:+ name
  /\ handle s = q
  /\ url (handle s) = Endpoint (handle s) +:+ "/queues/" +:+ Name (handle s)
  /\ bound_to q s.
Proof.
  intros q s.
  assert (Hs : bound_to q s) by (apply run_bound_to; by split).
  destruct Hs as [Hq Hm]. rewrite Hq. by repeat split.
Qed.

(** ** Queue.GetValue *)

(** Two runs of [GetValue] in which [Get] retrieves two different messages,
    both with a text that does not decode: the caller gets the same target
    and the same error from both, so nothing it gets tells which message was
    retrieved. *)
Lemma GetValue_loses_Message :
  Get Scripted.env [Scripted.answer 200 "a"] Scripted.jobs None
    = ([], (set_queue Scripted.msg_a Scripted.jobs, None))
  /\ Get Scripted.env [Scripted.answer 200 "b"] Scripted.jobs None
     = ([], (set_queue Scripted.msg_b Scripted.jobs, None))
  /\ GetValue Scripted.env [Scripted.answer 200 "a"] Scripted.jobs None 0
     = GetValue Scripted.env [Scripted.answer 200 "b"] Scripted.jobs None 0
  /\ ~ exists recover : Z * error -> Message,
         forall w w' msg v v' e,
           Get Scripted.env w Scripted.jobs None = (w', (msg, None)) ->
           json_Unmarshal_value Scripted.env (BodyText msg) v = (v', Some e) ->
           recover (GetValue Scripted.env w Scripted.jobs None v).2 = msg.
Proof.
  pose (wa := [Scripted.answer 200 "a"] : W Scripted.env).
  pose (wb := [Scripted.answer 200 "b"] : W Scripted.env).
  repeat split.
  intros [recover Hrecover].
  pose proof (Hrecover wa [] (set_queue Scripted.msg_a Scripted.jobs) 0 0
                Scripted.syntax_error eq_refl eq_refl) as Ha.
  pose proof (Hrecover wb [] (set_queue Scripted.msg_b Scripted.jobs) 0 0
                Scripted.syntax_error eq_refl eq_refl) as Hb.
  change (GetValue Scripted.env wb Scripted.jobs None 0)
    with (GetValue Scripted.env wa Scripted.jobs None 0) in Hb.
  rewrite Ha in Hb. discriminate Hb.
Qed.

(** C8, as the code has it. When [Get] succeeds and the text of the message
    does not decode into the target, [GetValue] returns the error of
    [json.Unmarshal], which is neither a [QueueNotFoundError] nor a
    [QueueEmptyError]. It returns that error only: the message is dropped,
    and any other message with the same text gives the same return. *)
Theorem GetValue_decode_error (E : Env) w q options v w' msg v' e :
  Get E w q options = (w', (msg, None)) ->
  json_Unmarshal_value E (BodyText msg) v = (v', Some e) ->
  GetValue E w q options v = (w', (v', Some (Library e)))
  /\ is_QueueNotFound (GetValue E w q options v).2.2 = false
  /\ is_QueueEmpty (GetValue E w q options v).2.2 = false
  /\ (forall w0 msg0,
        Get E w0 q options = (w', (msg0, None)) ->
        BodyText msg0 = BodyText msg ->
        GetValue E w0 q options v = GetValue E w q options v).
Proof.
  intros Hget Hdec.
  assert (Hval : GetValue E w q options v = (w', (v', Some (Library e)))).
  { unfold GetValue. by rewrite Hget, Hdec. }
  rewrite Hval. repeat split.
  intros w0 msg0 Hget0 Htext. unfold GetValue.
  by rewrite Hget0, Htext, Hdec.
Qed.

(** A retrieved message whose text is not JSON. *)
Lemma GetValue_decode_error_witness :
  GetValue Scripted.env [Scripted.answer 200 "a"] Scripted.jobs None 0
  = ([], (0, Some (Library Scripted.syntax_error))).
Proof.
  edestruct (GetValue_decode_error Scripted.env [Scripted.answer 200 "a"]
               Scripted.jobs None 0) as (Hval & _);
    [reflexivity | reflexivity |].
  exact Hval.
Defined.

(** * Further properties of the package *)

(** ** Queue.Put *)

Lemma Put_response (E : Env) w q bodyText bodyType req w' res :
  Put_request E q bodyText bodyType = inr req ->
  client_Do E w client_unbounded req = (w', inr res) ->
  Put E w q bodyText bodyType =
    (w', if StatusCode res =? 404 then Some (QueueNotFoundError q)
         else if negb (StatusCode res =? 200)
         then Some (QueueHTTPError q (StatusCode res))
         else None).
Proof.
  intros Hreq Hdo. unfold Put. rewrite Hreq.
  fold client_unbounded. rewrite Hdo. by status_cases.
Qed.

(** X1. A [Put] that receives a response returns nil on status 200, a
    [QueueNotFoundError] on 404, and on every other status a
    [QueueHTTPError] with that status; a 409 is such an other status. *)
Theorem Put_status (E : Env) w q bodyText bodyType req w' res :
  Put_request E q bodyText bodyType = inr req ->
  client_Do E w client_unbounded req = (w', inr res) ->
  (StatusCode res = 200 -> Put E w q bodyText bodyType = (w', None))
  /\ (StatusCode res = 404 ->
      Put E w q bodyText bodyType = (w', Some (QueueNotFoundError q)))
  /\ (StatusCode res <> 200 -> StatusCode res <> 404 ->
      Put E w q bodyText bodyType
      = (w', Some (QueueHTTPError q (StatusCode res)))).
Proof.
  intros Hreq Hdo.
  rewrite (Put_response E w q bodyText bodyType req w' res Hreq Hdo).
  repeat split; intros; status_cases; simpl; congruence.
Qed.

(** A 409 answer to [Put] is a plain HTTP error. *)
Lemma Put_status_witness :
  Put Scripted.env [Scripted.answer 409 ""] Scripted.jobs "hello" "text/plain"
  = ([], Some (QueueHTTPError Scripted.jobs 409)).
Proof.
  edestruct (Put_status Scripted.env [Scripted.answer 409 ""] Scripted.jobs
               "hello" "text/plain")
    as (_ & _ & Hother); [reflexivity | reflexivity |].
  apply Hother; simpl; lia.
Defined.

(** ** Queue.Statistics and Queue.Exists, by the response *)

(** X2. [Statistics] looks at the status for 404 only. With any other
    status, 500 as well as 200, a body that decodes gives the decoded counts
    and a nil error; a body that does not decode gives zero counts and the
    error of the decoder, whatever the decoder left in its target. *)
Theorem Statistics_by_response (E : Env) w q req w' res body :
  Statistics_request E q = inr req ->
  client_Do E w client_2s req = (w', inr res) ->
  StatusCode res <> 404 ->
  Body res = inr body ->
  (forall statistics,
     json_Unmarshal_QueueStatistics E body QueueStatistics_zero
       = (statistics, None) ->
     Statistics E w q = (w', (statistics, None)))
  /\ (forall partial err,
        json_Unmarshal_QueueStatistics E body QueueStatistics_zero
          = (partial, Some err) ->
        Statistics E w q = (w', (QueueStatistics_zero, Some (Library err)))).
Proof.
  intros Hreq Hdo Hne Hbody.
  rewrite (Statistics_response E w q req w' res Hreq Hdo).
  unfold StatusNotFound. status_cases; [done|]. rewrite Hbody.
  split.
  - intros statistics ->. reflexivity.
  - intros partial err ->. reflexivity.
Qed.

(** Counts come back from a 500 answer. *)
Lemma Statistics_by_response_witness :
  Statistics Scripted.env [Scripted.answer 500 "1,2,3"] Scripted.jobs
  = ([], ({| Visible := 1; Delayed := 2; Leased := 3 |}, None)).
Proof.
  edestruct (Statistics_by_response Scripted.env
               [Scripted.answer 500 "1,2,3"] Scripted.jobs)
    as (Hok & _);
    [reflexivity | reflexivity | simpl; lia | reflexivity |].
  apply Hok. reflexivity.
Defined.

(** X3. [Exists] by the response of its one round trip: [(false, nil)] on
    404; with any other status [(true, nil)] when the body decodes and also
    when the body cannot be read, and [(false, err)] with the error of the
    decoder when the body does not decode. *)
Theorem Exists_by_response (E : Env) w q req w' res :
  Statistics_request E q = inr req ->
  client_Do E w client_2s req = (w', inr res) ->
  (StatusCode res = 404 -> Exists E w q = (w', (false, None)))
  /\ (StatusCode res <> 404 ->
      match Body res with
      | inl readErr => Exists E w q = (w', (true, None))
      | inr body =>
        match json_Unmarshal_QueueStatistics E body QueueStatistics_zero with
        | (_, None) => Exists E w q = (w', (true, None))
        | (_, Some err) => Exists E w q = (w', (false, Some (Library err)))
        end
      end).
Proof.
  intros Hreq Hdo. unfold Exists.
  rewrite (Statistics_response E w q req w' res Hreq Hdo).
  unfold StatusNotFound. split; intros Hst; status_cases; try done.
  destruct (Body res) as [readErr|body]; [done|].
  by destruct (json_Unmarshal_QueueStatistics _ _ _) as [st [err|]].
Qed.

(** A 500 answer whose body breaks off: the queue is reported to exist. *)
Lemma Exists_by_response_witness :
  Exists Scripted.env [Scripted.broken 500] Scripted.jobs
  = ([], (true, None)).
Proof.
  edestruct (Exists_by_response Scripted.env [Scripted.broken 500]
               Scripted.jobs) as (_ & Hother); [reflexivity | reflexivity |].
  apply Hother. simpl. lia.
Defined.

(** X4. [Exists] never hands a [QueueNotFoundError] to its caller, and it
    answers [true] only with a nil error. *)
Theorem Exists_result_shape (E : Env) w q :
  is_QueueNotFound (Exists E w q).2.2 = false
  /\ match (Exists E w q).2 with
     | (true, Some _) => False
     | _ => True
     end.
Proof.
  unfold Exists.
  destruct (Statistics E w q) as [w' [st [[]|]]]; simpl; done.
Qed.

(** ** Failures of the transport *)

(** X5. When [client.Do] fails, every operation returns the error of the
    transport as it is, with the zero value ([false] for [Exists], the
    target untouched for [GetValue]); nothing is tried again. *)
Theorem transport_failure_is_returned (E : Env) w w' err q m options v bodyText bodyType :
  (forall req,
     Delete_request E m = inr req ->
     client_Do E w client_2s req = (w', inl err) ->
     Message_Delete E w m = (w', Some (Library err)))
  /\ (forall req,
        Statistics_request E q = inr req ->
        client_Do E w client_2s req = (w', inl err) ->
        Statistics E w q = (w', (QueueStatistics_zero, Some (Library err)))
        /\ Exists E w q = (w', (false, Some (Library err))))
  /\ (forall req,
        Create_request E q = inr req ->
        client_Do E w client_2s req = (w', inl err) ->
        Create E w q = (w', Some (Library err)))
  /\ (forall req,
        Get_request E q options = inr req ->
        client_Do E w client_unbounded req = (w', inl err) ->
        Get E w q options = (w', (Message_zero, Some (Library err)))
        /\ GetValue E w q options v = (w', (v, Some (Library err))))
  /\ (forall req,
        Put_request E q bodyText bodyType = inr req ->
        client_Do E w client_unbounded req = (w', inl err) ->
        Put E w q bodyText bodyType = (w', Some (Library err))).
Proof.
  split; [|split; [|split; [|split]]]; intros req Hreq Hdo.
  - unfold Message_Delete. rewrite Hreq. fold client_2s. by rewrite Hdo.
  - unfold Exists, Statistics. rewrite Hreq. fold client_2s. by rewrite Hdo.
  - unfold Create. rewrite Hreq. fold client_2s. by rewrite Hdo.
  - unfold GetValue, Get. rewrite Hreq. fold client_unbounded. by rewrite Hdo.
  - unfold Put. rewrite Hreq. fold client_unbounded. by rewrite Hdo.
Qed.

(** With nothing listening, [Exists] and [GetValue] give the error of the
    transport. *)
Lemma transport_failure_is_returned_witness :
  Exists Scripted.env [] Scripted.jobs
    = ([], (false, Some (Library (LibError "net/http" "connection refused"))))
  /\ GetValue Scripted.env [] Scripted.jobs None 7
    = ([], (7, Some (Library (LibError "net/http" "connection refused")))).
Proof.
  destruct (transport_failure_is_returned Scripted.env [] []
              (LibError "net/http" "connection refused") Scripted.jobs
              Scripted.msg_a None 7 "" "")
    as (_ & Hstatistics & _ & Hget & _).
  split.
  - eapply Hstatistics; reflexivity.
  - eapply Hget; reflexivity.
Defined.

(** ** Round trips and timeouts *)

(** A method body over the recording environment. *)
Ltac recorded_round_trip :=
  match goal with
  | |- context [match ?r with inl _ => _ | inr _ => _ end] =>
    destruct r as [?|?]
  end; [simpl; by rewrite app_nil_r|];
  simpl;
  match goal with
  | |- context [client_Do ?E ?w ?c ?r] =>
    destruct (client_Do E w c r) as [? [?|?]]
  end; body_cases; done.

Section Recorded.

Context (E : Env).

Lemma Statistics_recorded w log q :
  Statistics (logged E) (w, log) q
  = (((Statistics E w q).1, log ++ sent client_2s (Statistics_request E q)),
     (Statistics E w q).2).
Proof.
  unfold Statistics.
  change (Statistics_request (logged E)) with (Statistics_request E).
  recorded_round_trip.
Qed.

Lemma Exists_recorded w log q :
  Exists (logged E) (w, log) q
  = (((Exists E w q).1, log ++ sent client_2s (Statistics_request E q)),
     (Exists E w q).2).
Proof.
  unfold Exists. rewrite Statistics_recorded.
  destruct (Statistics E w q) as [w' [st [[]|]]]; reflexivity.
Qed.

Lemma Create_recorded w log q :
  Create (logged E) (w, log) q
  = (((Create E w q).1, log ++ sent client_2s (Create_request E q)),
     (Create E w q).2).
Proof.
  unfold Create.
  change (Create_request (logged E)) with (Create_request E).
  recorded_round_trip.
Qed.

Lemma Delete_recorded w log m :
  Message_Delete (logged E) (w, log) m
  = (((Message_Delete E w m).1, log ++ sent client_2s (Delete_request E m)),
     (Message_Delete E w m).2).
Proof.
  unfold Message_Delete.
  change (Delete_request (logged E)) with (Delete_request E).
  recorded_round_trip.
Qed.

Lemma Get_recorded w log q options :
  Get (logged E) (w, log) q options
  = (((Get E w q options).1,
      log ++ sent client_unbounded (Get_request E q options)),
     (Get E w q options).2).
Proof.
  unfold Get.
  change (Get_request (logged E)) with (Get_request E).
  recorded_round_trip.
Qed.

Lemma GetValue_recorded w log q options (v : V E) :
  GetValue (logged E) (w, log) q options v
  = (((GetValue E w q options v).1,
      log ++ sent client_unbounded (Get_request E q options)),
     (GetValue E w q options v).2).
Proof.
  unfold GetValue. rewrite Get_recorded.
  destruct (Get E w q options) as [w' [msg [err|]]]; [reflexivity|].
  simpl. by destruct (json_Unmarshal_value E (BodyText msg) v).
Qed.

Lemma Put_recorded w log q bodyText bodyType :
  Put (logged E) (w, log) q bodyText bodyType
  = (((Put E w q bodyText bodyType).1,
      log ++ sent client_unbounded (Put_request E q bodyText bodyType)),
     (Put E w q bodyText bodyType).2).
Proof.
  unfold Put.
  change (Put_request (logged E)) with (Put_request E).
  recorded_round_trip.
Qed.

End Recorded.

(** X6. [Statistics], [Exists], [Create] and [Delete] call [client.Do] once,
    with the request they built and a client whose timeout is two seconds;
    when the request cannot be built they do not call it. Recording the
    calls changes no result. *)
Theorem administrative_calls_use_two_seconds (E : Env) w log q m :
  Timeout client_2s = 2000000000
  /\ Statistics (logged E) (w, log) q
     = (((Statistics E w q).1, log ++ sent client_2s (Statistics_request E q)),
        (Statistics E w q).2)
  /\ Exists (logged E) (w, log) q
     = (((Exists E w q).1, log ++ sent client_2s (Statistics_request E q)),
        (Exists E w q).2)
  /\ Create (logged E) (w, log) q
     = (((Create E w q).1, log ++ sent client_2s (Create_request E q)),
        (Create E w q).2)
  /\ Message_Delete (logged E) (w, log) m
     = (((Message_Delete E w m).1, log ++ sent client_2s (Delete_request E m)),
        (Message_Delete E w m).2).
Proof.
  split; [reflexivity|].
  auto using Statistics_recorded, Exists_recorded, Create_recorded,
    Delete_recorded.
Qed.

(** X7. [Get], [GetValue] and [Put] call [client.Do] once, with the request
    they built and a client without a timeout ([Timeout] zero); when the
    request cannot be built they do not call it. Recording the calls changes
    no result. *)
Theorem data_calls_have_no_timeout (E : Env) w log q options (v : V E) bodyText bodyType :
  Timeout client_unbounded = 0
  /\ Get (logged E) (w, log) q options
     = (((Get E w q options).1,
         log ++ sent client_unbounded (Get_request E q options)),
        (Get E w q options).2)
  /\ GetValue (logged E) (w, log) q options v
     = (((GetValue E w q options v).1,
         log ++ sent client_unbounded (Get_request E q options)),
        (GetValue E w q options v).2)
  /\ Put (logged E) (w, log) q bodyText bodyType
     = (((Put E w q bodyText bodyType).1,
         log ++ sent client_unbounded (Put_request E q bodyText bodyType)),
        (Put E w q bodyText bodyType).2).
Proof.
  split; [reflexivity|].
  auto using Get_recorded, GetValue_recorded, Put_recorded.
Qed.

(** ** Headers and the connection flag *)

Lemma Header_authenticate q req :
  Header (authenticate q req) !! "Authentication"
  = if bool_decide (token q = "") then Header req !! "Authentication"
    else Some ["token " +:+ token q].
Proof.
  unfold authenticate. case_bool_decide; [done|].
  simpl. unfold Values_Set. by rewrite lookup_insert_eq.
Qed.

Lemma Header_authenticate_other q req key :
  key <> "Authentication" ->
  Header (authenticate q req) !! key = Header req !! key.
Proof.
  intros Hkey. unfold authenticate. case_bool_decide; [done|].
  simpl. unfold Values_Set. by rewrite lookup_insert_ne.
Qed.

Lemma Close_authenticate q req : Close (authenticate q req) = Close req.
Proof. unfold authenticate. by case_bool_decide. Qed.

(** Opening a request builder that gave a request. *)
Ltac open_request H :=
  repeat match type of H with
  | context [match ?x with inl _ => _ | inr _ => _ end] =>
    let Hx := fresh "Hnew" in destruct x eqn:Hx; [discriminate H|]
  | context [match ?x with Some _ => _ | None => _ end] => destruct x
  end;
  injection H as <-.

(** X8. Every request an operation builds for a queue with a token carries
    the header [Authentication] with the single value [token ] followed by
    the token, also after [Content-Type] is set. For a queue with the empty
    token the operations leave that header as [http.NewRequest] made it. *)
Theorem requests_carry_the_token (E : Env) q req :
  request_of E q req ->
  exists req0,
    fresh_request E req0
    /\ Header req !! "Authentication"
       = if bool_decide (token q = "") then Header req0 !! "Authentication"
         else Some ["token " +:+ token q].
Proof.
  intros [req' H|req' H|options req' H|bodyText bodyType req' H|m req' Hq H].
  - unfold Statistics_request in H. open_request H.
    eexists. split; [by repeat eexists|]. apply Header_authenticate.
  - unfold Create_request in H. open_request H.
    eexists. split; [by repeat eexists|]. simpl. unfold Values_Set.
    rewrite lookup_insert_ne by done. apply Header_authenticate.
  - unfold Get_request in H. open_request H;
      (eexists; split; [by repeat eexists|]; apply Header_authenticate).
  - unfold Put_request in H. open_request H.
    eexists. split; [by repeat eexists|]. simpl. unfold Values_Set.
    rewrite lookup_insert_ne by done. apply Header_authenticate.
  - unfold Delete_request in H. open_request H. subst q.
    eexists. split; [by repeat eexists|]. apply Header_authenticate.
Qed.

(** The request of [Put] for a queue with the token [s3cr3t]. *)
Lemma requests_carry_the_token_witness :
  exists req,
    Put_request Scripted.env Scripted.jobs "hello" "text/plain" = inr req
    /\ Header req !! "Authentication" = Some ["token s3cr3t"].
Proof.
  eexists. split; [reflexivity|].
  edestruct (requests_carry_the_token Scripted.env Scripted.jobs)
    as (req0 & _ & Hheader);
    [eapply (request_of_Put _ _ "hello" "text/plain"); reflexivity|].
  exact Hheader.
Defined.

(** X9. The requests of [Create], [Get], [Put] and [Delete] are marked to
    close the connection. The request of [Statistics], and so of [Exists],
    is not marked: its flag is as [http.NewRequest] made it. *)
Theorem requests_close_the_connection (E : Env) q options bodyText bodyType m req :
  (Create_request E q = inr req -> Close req = true)
  /\ (Get_request E q options = inr req -> Close req = true)
  /\ (Put_request E q bodyText bodyType = inr req -> Close req = true)
  /\ (Delete_request E m = inr req -> Close req = true)
  /\ (Statistics_request E q = inr req ->
      exists req0,
        http_NewRequest E MethodGet (url q +:+ "/statistics") None = inr req0
        /\ Close req = Close req0).
Proof.
  split; [|split; [|split; [|split]]]; intros H.
  - unfold Create_request in H. by open_request H.
  - unfold Get_request in H. by open_request H.
  - unfold Put_request in H. by open_request H.
  - unfold Delete_request in H. by open_request H.
  - unfold Statistics_request in H. open_request H.
    eexists. split; [done|]. apply Close_authenticate.
Qed.

(** With a [http.NewRequest] that leaves the flag unset, as Go's does, the
    request of [Get] is marked and the request of [Statistics] is not. *)
Lemma requests_close_the_connection_witness :
  (exists req, Get_request Scripted.env Scripted.jobs None = inr req
               /\ Close req = true)
  /\ (exists req, Statistics_request Scripted.env Scripted.jobs = inr req
                  /\ Close req = false).
Proof.
  split.
  - eexists. split; [reflexivity|].
    edestruct (requests_close_the_connection Scripted.env Scripted.jobs None
                 "" "" Scripted.msg_a) as (_ & Hget & _).
    apply Hget. reflexivity.
  - eexists. split; [reflexivity|].
    edestruct (requests_close_the_connection Scripted.env Scripted.jobs None
                 "" "" Scripted.msg_a) as (_ & _ & _ & _ & Hstatistics).
    edestruct Hstatistics as (req0 & Hnew & Hclose); [reflexivity|].
    rewrite Hclose. by injection Hnew as <-.
Defined.

(** X10. The requests of [Create] and [Put], which carry a JSON body, have
    the header [Content-Type] with the single value [application/json]. The
    requests of [Statistics], [Get] and [Delete] leave that header as
    [http.NewRequest] made it. *)
Theorem requests_content_type (E : Env) q options bodyText bodyType m req :
  (Create_request E q = inr req ->
   Header req !! "Content-Type" = Some ["application/json"])
  /\ (Put_request E q bodyText bodyType = inr req ->
      Header req !! "Content-Type" = Some ["application/json"])
  /\ (Statistics_request E q = inr req \/ Get_request E q options = inr req
      \/ Delete_request E m = inr req ->
      exists req0,
        fresh_request E req0
        /\ Header req !! "Content-Type" = Header req0 !! "Content-Type").
Proof.
  split; [|split].
  - intros H. unfold Create_request in H. open_request H.
    simpl. unfold Values_Set. by rewrite lookup_insert_eq.
  - intros H. unfold Put_request in H. open_request H.
    simpl. unfold Values_Set. by rewrite lookup_insert_eq.
  - intros [H|[H|H]].
    + unfold Statistics_request in H. open_request H.
      eexists. split; [by repeat eexists|].
      by apply Header_authenticate_other.
    + unfold Get_request in H. open_request H;
        (eexists; split; [by repeat eexists|]; simpl;
         by apply Header_authenticate_other).
    + unfold Delete_request in H. open_request H.
      eexists. split; [by repeat eexists|]. simpl.
      by apply Header_authenticate_other.
Qed.

(** The request of [Create] has the content type, and the request of
    [Delete] has none. *)
Lemma requests_content_type_witness :
  (exists req, Create_request Scripted.env Scripted.jobs = inr req
               /\ Header req !! "Content-Type" = Some ["application/json"])
  /\ (exists req, Delete_request Scripted.env Scripted.msg_a = inr req
                  /\ Header req !! "Content-Type" = None).
Proof.
  split.
  - eexists. split; [reflexivity|].
    edestruct (requests_content_type Scripted.env Scripted.jobs None "" ""
                 Scripted.msg_a) as (Hcreate & _).
    apply Hcreate. reflexivity.
  - eexists. split; [reflexivity|].
    edestruct (requests_content_type Scripted.env Scripted.jobs None "" ""
                 Scripted.msg_a) as (_ & _ & Hplain).
    edestruct Hplain as (req0 & (method & url & body & Hnew) & Hheader);
      [right; right; reflexivity|].
    rewrite Hheader. by injection Hnew as <-.
Defined.

(** ** The URL of a queue is fixed when it is built *)

Lemma authenticate_token q q' req :
  token q = token q' -> authenticate q req = authenticate q' req.
Proof. unfold authenticate. by intros ->. Qed.

(** X11. [Statistics], [Get], [Put] and [Delete] address the queue by the
    field [url] alone, and [Create] by [Endpoint] and [Name] alone. Two
    queues with the same [url] and token give the same requests of
    [Statistics], [Get], [Put] and [Delete], whatever their [Endpoint] and
    [Name]; two queues with the same [Endpoint], [Name] and token give the
    same request of [Create], whatever their [url]. *)
Theorem requests_use_the_stored_url (E : Env) q q' options bodyText bodyType m m' :
  token q = token q' ->
  (url q = url q' ->
   Statistics_request E q = Statistics_request E q'
   /\ Get_request E q options = Get_request E q' options
   /\ Put_request E q bodyText bodyType = Put_request E q' bodyText bodyType
   /\ (queue m = q -> queue m' = q' -> LeaseUUID m = LeaseUUID m' ->
       Delete_request E m = Delete_request E m'))
  /\ (Endpoint q = Endpoint q' -> Name q = Name q' ->
      Create_request E q = Create_request E q').
Proof.
  intros Htoken. split.
  - intros Hurl. split; [|split; [|split]].
    + unfold Statistics_request. rewrite Hurl.
      destruct (http_NewRequest _ _ _ _); [done|].
      by rewrite (authenticate_token q q').
    + unfold Get_request. rewrite Hurl.
      destruct (http_NewRequest _ _ _ _); [done|].
      by rewrite (authenticate_token q q').
    + unfold Put_request. rewrite Hurl.
      destruct (json_Marshal_PutMessageRequest _ _); [done|].
      destruct (http_NewRequest _ _ _ _); [done|].
      by rewrite (authenticate_token q q').
    + intros Hm Hm' Huuid. unfold Delete_request.
      rewrite Hm, Hm', Hurl, Huuid.
      destruct (http_NewRequest _ _ _ _); [done|].
      by rewrite (authenticate_token q q').
  - intros Hendpoint Hname. unfold Create_request.
    rewrite Hendpoint, Hname.
    destruct (json_Marshal_CreateQueueRequest _ _); [done|].
    destruct (http_NewRequest _ _ _ _); [done|].
    by rewrite (authenticate_token q q').
Qed.

(** A handle built for [jobs] whose [Name] was then set to [other]: [Get]
    goes to [jobs] as before. *)
Lemma requests_use_the_stored_url_witness :
  Get_request Scripted.env
    {| Endpoint := "http://tqs.local"; Name := "other";
       url := "http://tqs.local/queues/jobs"; token := "s3cr3t" |} None
  = Get_request Scripted.env Scripted.jobs None.
Proof.
  edestruct (requests_use_the_stored_url Scripted.env
              {| Endpoint := "http://tqs.local"; Name := "other";
                 url := "http://tqs.local/queues/jobs"; token := "s3cr3t" |}
              Scripted.jobs None "" "" Scripted.msg_a Scripted.msg_a)
    as ((_ & Hget & _) & _); [reflexivity | reflexivity |].
  exact Hget.
Defined.

(** ** Queue.GetValue, by the response *)

(** X12. [GetValue] by the response of its one round trip. On 404 it
    returns a [QueueNotFoundError] and on a batch that is not of one message
    a [QueueEmptyError], in both cases without touching the target. On a
    batch of one message it returns what [json.Unmarshal] of the text of
    that message into the target gives. *)
Theorem GetValue_by_response (E : Env) w q options (v : V E) req w' res :
  Get_request E q options = inr req ->
  client_Do E w client_unbounded req = (w', inr res) ->
  (StatusCode res = 404 ->
   GetValue E w q options v = (w', (v, Some (QueueNotFoundError q))))
  /\ (forall body response,
        StatusCode res <> 404 ->
        Body res = inr body ->
        json_Unmarshal_GetMessagesResponse E body GetMessagesResponse_zero
          = (response, None) ->
        match Messages response with
        | [msg] =>
          GetValue E w q options v
          = (w', ((json_Unmarshal_value E (BodyText msg) v).1,
                  lift_error (json_Unmarshal_value E (BodyText msg) v).2))
        | _ => GetValue E w q options v = (w', (v, Some (QueueEmptyError q)))
        end).
Proof.
  intros Hreq Hdo. unfold GetValue.
  rewrite (Get_response E w q options req w' res Hreq Hdo).
  unfold StatusNotFound. split.
  - intros ->. reflexivity.
  - intros body response Hne Hbody Hdec. status_cases; [done|].
    rewrite Hbody, Hdec.
    destruct (Messages response) as [|msg [|msg' batch]]; simpl; try done.
    by destruct (json_Unmarshal_value E (BodyText msg) v).
Qed.

(** A message whose text decodes, and an empty queue. *)
Lemma GetValue_by_response_witness :
  GetValue Scripted.env [Scripted.answer 200 "c"] Scripted.jobs None 0
    = ([], (42, None))
  /\ GetValue Scripted.env [Scripted.answer 200 "none"] Scripted.jobs None 7
     = ([], (7, Some (QueueEmptyError Scripted.jobs))).
Proof.
  split.
  - edestruct (GetValue_by_response Scripted.env [Scripted.answer 200 "c"]
                 Scripted.jobs None 0) as (_ & Hbatch);
      [reflexivity | reflexivity |].
    eapply (Hbatch "c" {| Messages := [Scripted.msg_c] |});
      [simpl; lia | reflexivity | reflexivity].
  - edestruct (GetValue_by_response Scripted.env [Scripted.answer 200 "none"]
                 Scripted.jobs None 7) as (_ & Hbatch);
      [reflexivity | reflexivity |].
    eapply (Hbatch "none" {| Messages := [] |});
      [simpl; lia | reflexivity | reflexivity].
Defined.

(** X13. When the status is not 404 and reading the body fails, [GetValue]
    does not return the read error: [Get] hands it the zero [Message] with a
    nil error, and it returns what [json.Unmarshal] of the empty text into
    the target gives. *)
Theorem GetValue_body_read_failure (E : Env) w q options (v : V E) req w' res readErr :
  Get_request E q options = inr req ->
  client_Do E w client_unbounded req = (w', inr res) ->
  StatusCode res <> 404 ->
  Body res = inl readErr ->
  GetValue E w q options v
  = (w', ((json_Unmarshal_value E "" v).1,
          lift_error (json_Unmarshal_value E "" v).2)).
Proof.
  intros Hreq Hdo Hne Hbody. unfold GetValue.
  rewrite (Get_response E w q options req w' res Hreq Hdo).
  unfold StatusNotFound. status_cases; [done|]. rewrite Hbody. simpl.
  by destruct (json_Unmarshal_value E "" v).
Qed.

(** A 200 answer whose body breaks off comes back as a JSON error. *)
Lemma GetValue_body_read_failure_witness :
  GetValue Scripted.env [Scripted.broken 200] Scripted.jobs None 7
  = ([], (7, Some (Library Scripted.syntax_error))).
Proof.
  eapply (GetValue_body_read_failure Scripted.env [Scripted.broken 200]
            Scripted.jobs None 7);
    [reflexivity | reflexivity | simpl; lia | reflexivity].
Defined.

(** ** More on the query of Get *)

(** X14. On a target with a 64-bit [int], the [wait_time] that [Get] sends
    for a positive wait is a whole number of seconds that is at most the
    wait and less than one second below it. A wait of less than a second is
    sent as [0]. *)
Theorem wait_time_is_whole_seconds (E : Env) (o : GetOptions) (query : Values) :
  int_size E = Int64 ->
  int64_range (Wait o) ->
  0 < Wait o ->
  exists seconds,
    Get_query E o query !! "wait_time" = Some [Itoa seconds]
    /\ seconds * Second <= Wait o < (seconds + 1) * Second
    /\ (Wait o < Second -> Get_query E o query !! "wait_time" = Some ["0"]).
Proof.
  intros Hsize Hrange Hpos. exists (Wait o / Second).
  assert (Hsent : Get_query E o query !! "wait_time"
                  = Some [Itoa (Wait o / Second)]).
  { unfold Get_query, Values_Set.
    destruct (Z.ltb_spec 0 (Wait o)) as [_|]; [|lia].
    rewrite Hsize, lookup_insert_eq, int_of_int64_id by done.
    rewrite Z.quot_div_nonneg by lia. reflexivity. }
  split; [exact Hsent|]. unfold Second in *. split.
  - pose proof (Z.div_mod (Wait o) 1000000000).
    pose proof (Z.mod_pos_bound (Wait o) 1000000000). lia.
  - intros Hshort. rewrite Hsent, Z.div_small by lia. reflexivity.
Qed.

(** A wait of 999 milliseconds goes out as [wait_time=0]. *)
Lemma wait_time_is_whole_seconds_witness :
  Get_query Scripted.env
    {| Wait := 999000000; Delete := false; Retry := false |} ∅
    !! "wait_time" = Some ["0"].
Proof.
  destruct (wait_time_is_whole_seconds Scripted.env
              {| Wait := 999000000; Delete := false; Retry := false |} ∅)
    as (seconds & _ & _ & Hshort);
    [reflexivity | unfold int64_range; simpl; lia | simpl; lia |].
  apply Hshort. unfold Second. simpl. lia.
Defined.

(** X15. Without options [Get] sends the URL as [http.NewRequest] parsed it.
    With options that ask for nothing ([Delete] false, [Wait] zero or
    negative) it sets no parameter, but it replaces the raw query by the
    encoding of the parsed query. *)
Theorem Get_request_without_parameters (E : Env) q o req0 :
  http_NewRequest E MethodGet (url q) None = inr req0 ->
  Delete o = false ->
  Wait o <= 0 ->
  (exists req, Get_request E q None = inr req /\ ReqURL req = ReqURL req0)
  /\ (exists req,
        Get_request E q (Some o) = inr req
        /\ RawQuery (ReqURL req)
           = Values_Encode E (URL_Query E (ReqURL req0))
        /\ Path (ReqURL req) = Path (ReqURL req0)).
Proof.
  intros Hnew Hdelete Hwait. unfold Get_request. rewrite Hnew. split.
  - eexists. split; [reflexivity|]. simpl. apply ReqURL_authenticate.
  - eexists. split; [reflexivity|]. simpl. rewrite ReqURL_authenticate.
    unfold Get_query. rewrite Hdelete.
    destruct (Z.ltb_spec 0 (Wait o)); [lia|]. done.
Qed.

(** Options with a negative wait. *)
Lemma Get_request_without_parameters_witness :
  exists req,
    Get_request Scripted.env Scripted.jobs
      (Some {| Wait := -5; Delete := false; Retry := true |}) = inr req
    /\ RawQuery (ReqURL req) = "".
Proof.
  edestruct (Get_request_without_parameters Scripted.env Scripted.jobs
               {| Wait := -5; Delete := false; Retry := true |})
    as (_ & req & Hreq & Hquery & _);
    [reflexivity | reflexivity | simpl; lia |].
  exists req. split; [exact Hreq | exact Hquery].
Defined.

(** ** The errors an operation can return *)

(** A method body that makes its round trip, with the status tests decided. *)
Ltac any_outcome :=
  match goal with
  | |- context [match ?r with inl _ => _ | inr _ => _ end] =>
    destruct r as [?|?]
  end; [done|];
  match goal with
  | |- context [client_Do ?E ?w ?c ?r] =>
    destruct (client_Do E w c r) as [? [?|?]]
  end; [done|]; simpl; status_cases; simpl.

(** X16. The only errors of [Create] are [QueueAlreadyExistsError],
    [QueueHTTPError] and library errors; the only errors of [Put] are
    [QueueNotFoundError], [QueueHTTPError] and library errors. Each names
    the receiver. The status inside a [QueueHTTPError] is never 200, never
    409 from [Create] and never 404 from [Put]. *)
Theorem errors_of_Create_and_Put (E : Env) w q bodyText bodyType :
  match (Create E w q).2 with
  | None | Some (Library _) => True
  | Some (QueueAlreadyExistsError q') => q' = q
  | Some (QueueHTTPError q' status) =>
    q' = q /\ status <> 200 /\ status <> 409
  | Some _ => False
  end
  /\ match (Put E w q bodyText bodyType).2 with
     | None | Some (Library _) => True
     | Some (QueueNotFoundError q') => q' = q
     | Some (QueueHTTPError q' status) =>
       q' = q /\ status <> 200 /\ status <> 404
     | Some _ => False
     end.
Proof.
  split.
  - unfold Create. any_outcome; done.
  - unfold Put. any_outcome; done.
Qed.

(** X17. The only errors of [Statistics] are [QueueNotFoundError] and
    library errors; of [Get], [QueueNotFoundError], [QueueEmptyError] and
    library errors; of [Delete], [LeaseNotFoundError] and library errors.
    Each names the receiver. With an error, [Statistics] and [Get] return
    the zero value. *)
Theorem errors_of_Statistics_Get_and_Delete (E : Env) w q options m :
  match (Statistics E w q).2 with
  | (_, None) => True
  | (statistics, Some (Library _)) => statistics = QueueStatistics_zero
  | (statistics, Some (QueueNotFoundError q')) =>
    q' = q /\ statistics = QueueStatistics_zero
  | (_, Some _) => False
  end
  /\ match (Get E w q options).2 with
     | (_, None) => True
     | (msg, Some (Library _)) => msg = Message_zero
     | (msg, Some (QueueNotFoundError q'))
     | (msg, Some (QueueEmptyError q')) => q' = q /\ msg = Message_zero
     | (_, Some _) => False
     end
  /\ match (Message_Delete E w m).2 with
     | None | Some (Library _) => True
     | Some (LeaseNotFoundError m') => m' = m
     | Some _ => False
     end.
Proof.
  split; [|split].
  - unfold Statistics, StatusNotFound. any_outcome; [done|].
    destruct (Body _) as [readErr|body]; [done|].
    by destruct (json_Unmarshal_QueueStatistics _ _ _) as [st [err|]].
  - unfold Get, StatusNotFound. any_outcome; [done|].
    destruct (Body _) as [readErr|body]; [done|].
    destruct (json_Unmarshal_GetMessagesResponse _ _ _) as [rs [err|]];
      [done|].
    by destruct (_ =? _)%nat.
  - unfold Message_Delete. any_outcome; done.
Qed.

(** ** From Get to Delete *)

(** X18. A message that [Get] hands back (other than the zero [Message] of a
    failed body read) is deleted at the queue it came from: the request of
    its [Delete] is made for the URL of that queue followed by [/leases/]
    and the lease of the message, with the token of that queue, and is
    marked to close the connection. *)
Theorem Delete_addresses_the_queue_of_Get (E : Env) w q options w' msg :
  Get E w q options = (w', (msg, None)) ->
  msg <> Message_zero ->
  Delete_request E msg
  = match http_NewRequest E MethodDelete
            (url q +:+ "/leases/" +:+ LeaseUUID msg) None with
    | inl err => inl err
    | inr req => inr (set_Close (authenticate q req) true)
    end.
Proof.
  intros Hget Hmsg.
  destruct (Get_binds_queue E w q options w' msg Hget) as [Hq|]; [|done].
  unfold Delete_request. by rewrite Hq.
Qed.

(** The lease of a message of [jobs] is deleted under the URL of [jobs]. *)
Lemma Delete_addresses_the_queue_of_Get_witness :
  exists req,
    Delete_request Scripted.env (set_queue Scripted.msg_a Scripted.jobs)
      = inr req
    /\ Path (ReqURL req) = "http://tqs.local/queues/jobs/leases/lease-a"
    /\ Header req !! "Authentication" = Some ["token s3cr3t"].
Proof.
  eexists. split.
  - rewrite (Delete_addresses_the_queue_of_Get Scripted.env
               [Scripted.answer 200 "a"] Scripted.jobs None []
               (set_queue Scripted.msg_a Scripted.jobs) eq_refl);
      [reflexivity | discriminate].
  - split; reflexivity.
Defined.

(** ** The texts of the errors *)

Lemma list_ascii_of_string_app s t :
  String.list_ascii_of_string (s +:+ t)
  = String.list_ascii_of_string s ++ String.list_ascii_of_string t.
Proof. induction s as [|c s IH]; simpl; [done|]. by rewrite IH. Qed.

Lemma list_ascii_of_string_inj s t :
  String.list_ascii_of_string s = String.list_ascii_of_string t -> s = t.
Proof.
  intros H. rewrite <- (String.string_of_list_ascii_of_string s).
  rewrite H. apply String.string_of_list_ascii_of_string.
Qed.

(** The characters of a text, last one first. *)
Lemma text_backwards s t :
  s = t ->
  rev (String.list_ascii_of_string s) = rev (String.list_ascii_of_string t).
Proof. by intros ->. Qed.

(** Two texts that differ in their ending are different. *)
Ltac by_the_ending H :=
  apply text_backwards in H;
  rewrite ?list_ascii_of_string_app, ?rev_app_distr in H;
  simpl in H; discriminate H.

(** A text between a fixed beginning and a fixed ending gives back what is
    between them. *)
Lemma between_inj pre post s t :
  pre +:+ s +:+ post = pre +:+ t +:+ post -> s = t.
Proof.
  intros H. apply String.app_inj in H.
  apply (f_equal String.list_ascii_of_string) in H.
  rewrite !list_ascii_of_string_app in H.
  apply app_inv_tail in H. by apply list_ascii_of_string_inj.
Qed.

(** X19. The texts of the five error types are pairwise different, whatever
    the queues, the message and the status they are about: the text of an
    error tells its type. *)
Theorem error_texts_tell_the_type (m : Message) (q1 q2 q3 q4 : Queue) (status : Z) :
  let lease := LeaseNotFoundError_Error m in
  let missing := QueueNotFoundError_Error q1 in
  let empty := QueueEmptyError_Error q2 in
  let exists_ := QueueAlreadyExistsError_Error q3 in
  let http := QueueHTTPError_Error q4 status in
  lease <> missing /\ lease <> empty /\ lease <> exists_ /\ lease <> http
  /\ missing <> empty /\ missing <> exists_ /\ missing <> http
  /\ empty <> exists_ /\ empty <> http
  /\ exists_ <> http.
Proof.
  unfold LeaseNotFoundError_Error, QueueNotFoundError_Error,
    QueueEmptyError_Error, QueueAlreadyExistsError_Error,
    QueueHTTPError_Error.
  simpl. repeat split; intros H; try discriminate H; by_the_ending H.
Qed.

(** X20. The text of a [QueueNotFoundError], a [QueueEmptyError] or a
    [QueueAlreadyExistsError] gives back the name of its queue, and the text
    of a [LeaseNotFoundError] the lease of its message: two such errors of
    one type have the same text only for the same name or lease. *)
Theorem error_texts_name_the_queue (q q' : Queue) (m m' : Message) :
  (QueueNotFoundError_Error q = QueueNotFoundError_Error q' <->
   Name q = Name q')
  /\ (QueueEmptyError_Error q = QueueEmptyError_Error q' <->
      Name q = Name q')
  /\ (QueueAlreadyExistsError_Error q = QueueAlreadyExistsError_Error q' <->
      Name q = Name q')
  /\ (LeaseNotFoundError_Error m = LeaseNotFoundError_Error m' <->
      LeaseUUID m = LeaseUUID m').
Proof.
  unfold LeaseNotFoundError_Error, QueueNotFoundError_Error,
    QueueEmptyError_Error, QueueAlreadyExistsError_Error.
  repeat split; try (intros ->; reflexivity); apply between_inj.
Qed.

(** ** Calls of client.Do in a sequence of calls *)

Lemma step_calls_of_Do (E : Env) (s : caller (counted E)) c :
  ((net (step s c)).2 <= S (net s).2)%nat.
Proof.
  destruct s as [[w n] q held]. destruct c; simpl.
  - pose proof (Create_round_trips E w n q).
    by destruct (Create (counted E) (w, n) q).
  - pose proof (Exists_round_trips E w n q).
    by destruct (Exists (counted E) (w, n) q).
  - pose proof (Statistics_round_trips E w n q).
    by destruct (Statistics (counted E) (w, n) q).
  - pose proof (Get_round_trips E w n q options).
    by destruct (Get (counted E) (w, n) q options) as [? [? ?]].
  - pose proof (GetValue_round_trips E w n q options v).
    by destruct (GetValue (counted E) (w, n) q options v).
  - pose proof (Put_round_trips E w n q bodyText bodyType).
    by destruct (Put (counted E) (w, n) q bodyText bodyType).
  - destruct held as [m|]; simpl; [|lia].
    pose proof (Delete_round_trips E w n m).
    by destruct (Message_Delete (counted E) (w, n) m).
Qed.

(** X21. A caller that makes a sequence of calls on its handle and on the
    message it holds causes at most one call of [client.Do] per call: no
    operation calls [client.Do] twice, and nothing calls it between the
    caller's calls. (What [client.Do] does inside one call, such as
    following a redirect, is the library's.) *)
Theorem run_calls_of_Do (E : Env) (cs : list (call (counted E))) :
  forall s : caller (counted E),
    ((net (run s cs)).2 <= (net s).2 + length cs)%nat.
Proof.
  induction cs as [|c cs IH]; intros s; simpl; [lia|].
  pose proof (IH (step s c)). pose proof (step_calls_of_Do E s c).
  unfold run in *. lia.
Qed.

(** ** The query parameters of Get, on both sizes of int *)

(** C6. With options given, the request that [Get] hands to [client.Do]
    has the parameter [delete], set to [true], only when [options.Delete]
    holds, and the parameter [wait_time] only when [options.Wait] is
    positive; otherwise each is as the URL had it, and no other parameter
    changes. The value of [wait_time] is the decimal form of
    [int(options.Wait) / 1000000000]. Where the wait fits the [int] of the
    target, as every wait does with a 64-bit [int], that is the wait in
    whole seconds, fraction dropped. With a 32-bit [int] the conversion comes
    before the division and wraps: a wait of three seconds is sent as
    [wait_time=-1]. *)
Theorem Get_query_parameters (E : Env) w q o req0 :
  int64_range (Wait o) ->
  http_NewRequest E MethodGet (url q) None = inr req0 ->
  let before := URL_Query E (ReqURL req0) in
  let after := Get_query E o before in
  (exists req,
     Get_request E q (Some o) = inr req
     /\ (Get (logged E) (w, []) q (Some o)).1.2 = [(client_unbounded, req)]
     /\ RawQuery (ReqURL req) = Values_Encode E after)
  /\ after !! "delete"
     = (if Delete o then Some ["true"] else before !! "delete")
  /\ after !! "wait_time"
     = (if 0 <? Wait o
        then Some [Itoa (int_of_int64 (int_size E) (Wait o) ÷ 1000000000)]
        else before !! "wait_time")
  /\ (forall k, k <> "delete" -> k <> "wait_time" -> after !! k = before !! k)
  /\ (int_size E = Int64 \/ int_range (int_size E) (Wait o) ->
      after !! "wait_time"
      = (if 0 <? Wait o then Some [Itoa (Wait o / 1000000000)]
         else before !! "wait_time"))
  /\ (int_size E = Int32 -> Wait o = 3 * Second ->
      after !! "wait_time" = Some ["-1"]
      /\ Itoa (Wait o / 1000000000) = "3").
Proof.
  intros Hrange Hnew before after.
  assert (Hwait : after !! "wait_time"
                  = (if 0 <? Wait o
                     then Some [Itoa (int_of_int64 (int_size E) (Wait o)
                                      ÷ 1000000000)]
                     else before !! "wait_time")).
  { subst after. unfold Get_query, Values_Set.
    destruct (0 <? Wait o); [by rewrite lookup_insert_eq|].
    destruct (Delete o); [by rewrite lookup_insert_ne | done]. }
  split; [|split; [|split; [|split; [|split]]]].
  - unfold Get_request. rewrite Hnew. eexists. split; [reflexivity|]. split.
    + rewrite Get_recorded. unfold Get_request. rewrite Hnew. reflexivity.
    + simpl. by rewrite ReqURL_authenticate.
  - subst after. unfold Get_query, Values_Set.
    destruct (0 <? Wait o), (Delete o);
      rewrite ?lookup_insert_ne by done; by rewrite ?lookup_insert_eq.
  - exact Hwait.
  - intros k Hd Hw. subst after. unfold Get_query, Values_Set.
    destruct (0 <? Wait o), (Delete o);
      by rewrite ?lookup_insert_ne by done.
  - intros Hfits. rewrite Hwait.
    destruct (Z.ltb_spec 0 (Wait o)) as [Hpos|Hle]; [|done].
    rewrite int_of_int64_fits.
    + by rewrite Z.quot_div_nonneg by lia.
    + destruct Hfits as [->|Hfits]; [exact Hrange | exact Hfits].
  - intros Hsize Hthree. rewrite Hwait, Hsize, Hthree. split; reflexivity.
Qed.

(** A wait of 3.5 seconds with [Delete], on a 64-bit target, goes out as
    [wait_time=3] and [delete=true]. A wait of 3 seconds on a 32-bit target
    goes out as [wait_time=-1]. *)
Lemma Get_query_parameters_witness :
  (Get_query Scripted.env
     {| Wait := 3500000000; Delete := true; Retry := false |} ∅
     !! "delete" = Some ["true"]
   /\ Get_query Scripted.env
        {| Wait := 3500000000; Delete := true; Retry := false |} ∅
        !! "wait_time" = Some ["3"])
  /\ Get_query Scripted.env32
       {| Wait := 3000000000; Delete := false; Retry := false |} ∅
       !! "wait_time" = Some ["-1"].
Proof.
  split.
  - edestruct (Get_query_parameters Scripted.env [] Scripted.jobs
                 {| Wait := 3500000000; Delete := true; Retry := false |})
      as (_ & Hdelete & _ & _ & Hwait & _);
      [unfold int64_range; simpl; lia | reflexivity |].
    split; [exact Hdelete | apply Hwait; by left].
  - edestruct (Get_query_parameters Scripted.env32 [] Scripted.jobs
                 {| Wait := 3000000000; Delete := false; Retry := false |})
      as (_ & _ & _ & _ & _ & Hwraps);
      [unfold int64_range; simpl; lia | reflexivity |].
    by apply Hwraps.
Defined.
